(** * fflogsplot: the transform stage ([process_data]) of fflogsplot.py

    A shallow embedding of [process_data] (src/fflogsplot/fflogsplot.py,
    lines 47-131) and of the title filter of [extract_data] (lines 40-41),
    and the properties of the two tables that [process_data] builds.

    Modelling conventions.
    - A Python [float] is modelled as an exact rational ([Q]); [float(x)] on a
      JSON number is the identity.  Numeric equality of floats ([==] in
      Python) is [Qeq] ([==] in [Q_scope]).  Rounding, infinities and NaN are
      outside the model.
    - A Python [int] is modelled as [Z]; [int(x)] on a JSON integer is the
      identity.
    - A Python exception is modelled by the [Raise] constructor of [result].
      A missing key is not modelled: the records [Report] and [Fight] have
      all their fields.
    - The dictionary of twelve column lists, appended to in lock step and
      turned into a data frame, is modelled as the list of its rows; a column
      is the [map] of a field over the rows.
    - Titles are ASCII strings.  [int] has the limit that CPython puts on
      the length of a numeral: more than 4300 digits are a [ValueError].
    - Of pandas, the model has [groupby(...).max()], [.mean()] and
      [.median()], the [.loc] selection, [.item()] and the assignment of
      [apply] over the rows to a column.  The lookup of lines 122-125
      compares the days after pandas has converted them to [float64]; the
      model compares the integers, which is the same for the days that
      [float64] holds exactly ([days_exact]), and the statements about the
      column that the lookup fills are made for such days.  The two files
      written (lines 127-131) are modelled by the tables that go into them.
      The request of [extract_data], [plot_data] and [main] are not
      modelled. *)

From Stdlib Require Import String Ascii.
From Stdlib Require Import ZArith QArith Bool Lia Lqa List.
From Stdlib Require Import DecimalString DecimalPos.
From Stdlib Require Import Sorting.Permutation Sorting.Sorted Sorting.Mergesort Orders.
Import ListNotations.

Set Implicit Arguments.

(** ** Exceptions *)

Inductive exn : Type :=
| IndexError
| ValueError.

Inductive result (A : Type) : Type :=
| Ok (a : A)
| Raise (e : exn).

Arguments Ok {A} a.
Arguments Raise {A} e.

Definition bind {A B : Type} (m : result A) (k : A -> result B) : result B :=
  match m with
  | Ok a => k a
  | Raise e => Raise e
  end.

Notation "x <- m ;; k" := (bind m (fun x => k))
  (at level 61, m at next level, right associativity).

(** [for x in xs: acc = body(acc, x)], where the body may raise. *)
Fixpoint for_each {A S : Type} (body : S -> A -> result S) (xs : list A) (s : S)
  : result S :=
  match xs with
  | [] => Ok s
  | x :: xs' => s' <- body s x ;; for_each body xs' s'
  end.

(** [[f(x) for x in xs]], where [f] may raise. *)
Fixpoint map_result {A B : Type} (f : A -> result B) (xs : list A) : result (list B) :=
  match xs with
  | [] => Ok []
  | x :: xs' => y <- f x ;; ys <- map_result f xs' ;; Ok (y :: ys)
  end.

(** ** The Python built-ins that [process_data] calls *)

Module Py.

(** [str.isspace] on an ASCII character: tab, newline, vertical tab, form
    feed, carriage return, the four separators 0x1c-0x1f, and space. *)
Definition isspace (c : ascii) : bool :=
  let n := nat_of_ascii c in
  ((9 <=? n) && (n <=? 13) || (28 <=? n) && (n <=? 32))%nat.

(** [s.split()]: the maximal runs of non-space characters, in order.  [word]
    is the run being read, if any. *)
Fixpoint split_from (s : string) (word : option string) : list string :=
  match s with
  | EmptyString =>
      match word with
      | Some w => [w]
      | None => []
      end
  | String c s' =>
      if isspace c then
        match word with
        | Some w => w :: split_from s' None
        | None => split_from s' None
        end
      else
        split_from s' (Some (match word with
                             | Some w => String.append w (String c EmptyString)
                             | None => String c EmptyString
                             end))
  end.

Definition split (s : string) : list string := split_from s None.

(** [xs[-1]]. *)
Definition last_item {A : Type} (xs : list A) : result A :=
  match rev xs with
  | [] => Raise IndexError
  | x :: _ => Ok x
  end.

Definition digit (c : ascii) : option Z :=
  let n := Z.of_nat (nat_of_ascii c) in
  if (48 <=? n)%Z && (n <=? 57)%Z then Some (n - 48)%Z else None.

(** The digits of an integer literal: decimal digits, where single
    underscores may stand between two digits.  [after_digit] tells whether
    the previous character was a digit. *)
Fixpoint digits (s : string) (acc : Z) (after_digit : bool) : result Z :=
  match s with
  | EmptyString => if after_digit then Ok acc else Raise ValueError
  | String c s' =>
      match digit c with
      | Some d => digits s' (10 * acc + d)%Z true
      | None =>
          if Ascii.eqb c "_"%char && after_digit
          then digits s' acc false
          else Raise ValueError
      end
  end.

(** The value of an integer literal: an optional sign and its digits. *)
Definition int_literal (s : string) : result Z :=
  match s with
  | String "-"%char s' => n <- digits s' 0%Z false ;; Ok (- n)%Z
  | String "+"%char s' => digits s' 0%Z false
  | _ => digits s 0%Z false
  end.

(** [sys.get_int_max_str_digits()]: the greatest number of digits of a
    numeral that [int] converts, 4300 unless the interpreter is told
    otherwise. *)
Definition int_max_str_digits : Z := 4300.

(** The number of digits of [s]; the sign and the underscores do not count. *)
Fixpoint count_digits (s : string) : Z :=
  match s with
  | EmptyString => 0
  | String c s' =>
      (match digit c with
       | Some _ => 1
       | None => 0
       end + count_digits s')%Z
  end.

(** [int(s)] on a string without surrounding white space: [ValueError] on
    a string of more than [int_max_str_digits] digits, and otherwise the
    value of the literal. *)
Definition int (s : string) : result Z :=
  if (int_max_str_digits <? count_digits s)%Z then Raise ValueError
  else int_literal s.

(** [max(a, b)] on floats: the first argument unless the second is greater. *)
Definition max (a b : Q) : Q :=
  match (a ?= b)%Q with
  | Lt => b
  | _ => a
  end.

(** [enumerate(xs)]. *)
Definition enumerate {A : Type} (xs : list A) : list (nat * A) :=
  combine (seq 0 (length xs)) xs.

End Py.

(** ** The raw document *)

Local Open Scope Q_scope.

(** One entry of [reportdict["fights"]]. *)
Record Fight : Type := mkFight {
  startTime : Q;
  endTime : Q;
  lastPhaseAsAbsoluteIndex : Z;
  fightPercentage : Q
}.

(** One entry of [raw_json_dict["reports"]["data"]]. *)
Record Report : Type := mkReport {
  title : string;
  fights : list Fight
}.

(** [raw_json_dict["reports"]["data"]]. *)
Definition RawDoc : Type := list Report.

(** ** The processed table *)

(** One row of [processed_fight_prog_data]; a field per column. *)
Record ProgressRow : Type := mkRow {
  Cumulative_Pulls : Z;
  Day : Z;
  Pull : Z;
  Pull_Start_Time : Q;
  Pull_End_Time : Q;
  Pull_Phase : Z;
  Historical_Highest_Phase : Z;
  Pull_Fight_Completion : Q;
  Historical_Highest_Fight_Completion : Q;
  Pull_Duration : Q;
  Daily_Cumulative_Hours : Q;
  Total_Cumulative_Hours : Q
}.

(** The variables that live across the whole loop (lines 48-70). *)
Record LoopState : Type := mkState {
  processed_fight_prog_data : list ProgressRow;
  cumulative_pulls : Z;
  total_cumulative_hours : Q;
  highest_phase : Z;
  highest_fight_completion : Q
}.

Definition initial_state : LoopState :=
  {| processed_fight_prog_data := [];
     cumulative_pulls := 1;
     total_cumulative_hours := 0;
     highest_phase := 0;
     highest_fight_completion := 0 |}.

(** [(float(endTime) - float(startTime)) / 1000] (lines 77-78). *)
Definition pull_duration (fightdict : Fight) : Q :=
  (endTime fightdict - startTime fightdict) / 1000.

(** The body of the inner loop (lines 77-108).  The state is the pair of
    [daily_cumulative_hours] and the outer variables. *)
Definition pull_body (day : Z) (st : Q * LoopState) (item : nat * Fight)
  : Q * LoopState :=
  let '(daily_cumulative_hours, s) := st in
  let '(pull_index, fightdict) := item in
  let daily_cumulative_hours := daily_cumulative_hours + pull_duration fightdict / 60 / 60 in
  let total_cumulative_hours' := total_cumulative_hours s + pull_duration fightdict / 60 / 60 in
  let highest_phase' := Z.max (highest_phase s) (lastPhaseAsAbsoluteIndex fightdict) in
  let highest_fight_completion' :=
    Py.max (highest_fight_completion s) (100 - fightPercentage fightdict) in
  (daily_cumulative_hours,
   {| processed_fight_prog_data :=
        processed_fight_prog_data s ++
        [{| Cumulative_Pulls := cumulative_pulls s;
            Day := day;
            Pull := (Z.of_nat pull_index + 1)%Z;
            Pull_Start_Time := startTime fightdict;
            Pull_End_Time := endTime fightdict;
            Pull_Phase := lastPhaseAsAbsoluteIndex fightdict;
            Historical_Highest_Phase := highest_phase';
            Pull_Fight_Completion := 100 - fightPercentage fightdict;
            Historical_Highest_Fight_Completion := highest_fight_completion';
            Pull_Duration := pull_duration fightdict;
            Daily_Cumulative_Hours := daily_cumulative_hours;
            Total_Cumulative_Hours := total_cumulative_hours' |}];
      cumulative_pulls := (cumulative_pulls s + 1)%Z;
      total_cumulative_hours := total_cumulative_hours';
      highest_phase := highest_phase';
      highest_fight_completion := highest_fight_completion' |}).

(** [int(reportdict["title"].split()[-1])] (line 72). *)
Definition day_of_title (t : string) : result Z :=
  w <- Py.last_item (Py.split t) ;; Py.int w.

(** The body of the outer loop (lines 72-108). *)
Definition report_body (s : LoopState) (reportdict : Report) : result LoopState :=
  day <- day_of_title (title reportdict) ;;
  Ok (snd (fold_left (pull_body day) (Py.enumerate (fights reportdict)) (0, s))).

(** Lines 63-108: the rows, before the last column is added. *)
Definition progress_rows (raw : RawDoc) : result (list ProgressRow) :=
  let fight_prog_data_raw := rev raw in
  s <- for_each report_body fight_prog_data_raw initial_state ;;
  Ok (processed_fight_prog_data s).

(** ** The data-frame operations used after the loop *)

Module GroupOrder <: TotalLeBool.
Definition t : Type := (Z * Q)%type.
Definition leb (a b : t) : bool := (fst a <=? fst b)%Z.
Lemma leb_total : forall a b, leb a b = true \/ leb b a = true.
Proof.
  intros a b. unfold leb.
  destruct (Z.leb_spec (fst a) (fst b)) as [H | H]; [now left | right].
  apply Z.leb_le. lia.
Qed.
End GroupOrder.

Module GroupSort := Sort GroupOrder.

Module Pandas.

(** One more value [v] for the group of key [k]: the group keeps the greater
    of what it had and [v]; a key not seen before opens a group. *)
Fixpoint group_max_add (k : Z) (v : Q) (groups : list (Z * Q)) : list (Z * Q) :=
  match groups with
  | [] => [(k, v)]
  | (k', m) :: rest =>
      if (k =? k')%Z then (k', Py.max m v) :: rest
      else (k', m) :: group_max_add k v rest
  end.

(** [df.groupby(key)[val].max().reset_index()]: one row per distinct key,
    with the greatest value of the rows that carry it, keys ascending. *)
Definition groupby_max {R : Type} (key : R -> Z) (val : R -> Q) (df : list R)
  : list (Z * Q) :=
  GroupSort.sort (fold_left (fun groups r => group_max_add (key r) (val r) groups) df []).

(** [groups.loc[groups[key] == k, val]].  In lines 122-125 the key [k] comes
    from a row that [apply] hands over as a series of [float64], and the
    column of the keys is converted to [float64] for the comparison.  The
    model compares the integers: this is the comparison of the code for the
    keys that [float64] holds exactly, those of magnitude at most 2^53. *)
Definition loc (k : Z) (groups : list (Z * Q)) : list Q :=
  map snd (filter (fun g => (fst g =? k)%Z) groups).

(** [series.item()]: the only element, or an error. *)
Definition item (xs : list Q) : result Q :=
  match xs with
  | [x] => Ok x
  | _ => Raise ValueError
  end.

(** [df[col] = df.apply(f, axis=1)]: the new column has one value per row.
    Over a frame without rows [apply] gives back a copy of the frame and not
    a column, and the assignment of a frame of twelve columns to one column
    raises [ValueError]: a document without attempts makes [process_data]
    fail. *)
Definition assign_apply {R B : Type} (f : R -> result B) (df : list R)
  : result (list B) :=
  match df with
  | [] => Raise ValueError
  | _ :: _ => map_result f df
  end.

End Pandas.

(** One row of the final [processed_fight_prog_data_df]: the twelve columns of
    the loop and the column added on lines 122-125. *)
Record ProcessedRow : Type := mkProcessed {
  progress : ProgressRow;
  Highest_Daily_Cumulative_Hours : Q
}.

(** Lines 47-125: the table written to [fight_prog_processed.csv]. *)
Definition process_data (raw_json_dict : RawDoc) : result (list ProcessedRow) :=
  processed_fight_prog_data_df <- progress_rows raw_json_dict ;;
  let highest_cumulative_hours_by_day_df :=
    Pandas.groupby_max Day Daily_Cumulative_Hours processed_fight_prog_data_df in
  Pandas.assign_apply
    (fun row =>
       h <- Pandas.item (Pandas.loc (Day row) highest_cumulative_hours_by_day_df) ;;
       Ok {| progress := row; Highest_Daily_Cumulative_Hours := h |})
    processed_fight_prog_data_df.

(** ** Vocabulary of the statements *)

(** The computation returns, it does not raise. *)
Definition is_ok {A : Type} (m : result A) : bool :=
  match m with
  | Ok _ => true
  | Raise _ => false
  end.

(** The title of every report ends in an integer numeral. *)
Definition titles_parse (raw : RawDoc) : bool :=
  forallb (fun reportdict => is_ok (day_of_title (title reportdict))) raw.

(** The day number of a report: what line 72 reads in its title (0 stands
    for a title that line 72 rejects, which no valid document has). *)
Definition report_day (reportdict : Report) : Z :=
  match day_of_title (title reportdict) with
  | Ok day => day
  | Raise _ => 0%Z
  end.

(** The number of attempts of a document: the sum, over its reports, of the
    number of fights of the report. *)
Definition total_attempts (raw : RawDoc) : nat :=
  list_sum (map (fun reportdict => length (fights reportdict)) raw).

(** A raw document is valid, or well formed, when the title of every report
    ends in an integer numeral and the document has at least one attempt;
    the presence and the types of the keys are part of the types [Report] and
    [Fight].  These are the documents on which [process_data] returns
    ([process_data_returns_iff] below). *)
Definition well_formed (raw : RawDoc) : bool :=
  titles_parse raw && negb (total_attempts raw =? 0)%nat.

(** The attempts of a document in the order of real time when the document
    lists its reports newest first: the reports from the last to the first,
    the fights of each report as stored. *)
Definition attempts (raw : RawDoc) : list Fight :=
  flat_map fights (rev raw).

(** The duration of an attempt in hours, from its times in milliseconds. *)
Definition duration_hours (fightdict : Fight) : Q :=
  (endTime fightdict - startTime fightdict) / 1000 / 60 / 60.

(** The state of the loop after all the reports of [raw]. *)
Definition final_state (raw : RawDoc) : result LoopState :=
  for_each report_body (rev raw) initial_state.

(** The inner loop of one report, from [daily_cumulative_hours = d]. *)
Definition report_loop (day : Z) (fs : list Fight) (d : Q) (s : LoopState)
  : Q * LoopState :=
  fold_left (pull_body day) (Py.enumerate fs) (d, s).

(** [l] is non-decreasing for [le]: an earlier element is below a later one. *)
Definition nondecreasing {A : Type} (le : A -> A -> Prop) (l : list A) : Prop :=
  forall i j x y, (i <= j)%nat ->
    nth_error l i = Some x -> nth_error l j = Some y -> le x y.

(** The row [r] records attempt [f], the [i]-th (from 0) of a report of day
    [day]: the seven columns that depend on the attempt alone. *)
Definition records (day : Z) (i : nat) (f : Fight) (r : ProgressRow) : Prop :=
  Day r = day /\
  Pull r = (Z.of_nat i + 1)%Z /\
  Pull_Start_Time r = startTime f /\
  Pull_End_Time r = endTime f /\
  Pull_Phase r = lastPhaseAsAbsoluteIndex f /\
  Pull_Fight_Completion r = 100 - fightPercentage f /\
  Pull_Duration r = pull_duration f.

(** The attempts of a document in processing order, each with the day of its
    report and its index in the report. *)
Definition indexed_attempts (raw : RawDoc) : list (Z * nat * Fight) :=
  flat_map
    (fun reportdict =>
       map (fun item => (report_day reportdict, fst item, snd item))
           (Py.enumerate (fights reportdict)))
    (rev raw).

(** [records], on an element of [indexed_attempts]. *)
Definition records_item (item : Z * nat * Fight) (r : ProgressRow) : Prop :=
  records (fst (fst item)) (snd (fst item)) (snd item) r.

(** The values of a column of the loop, in the final table. *)
Definition column {A : Type} (col : ProgressRow -> A) (tbl : list ProcessedRow)
  : list A :=
  map (fun t => col (progress t)) tbl.

(** The rows of the final table that belong to a report, when [earlier] are
    the reports that follow it in the document (and are processed before it). *)
Definition report_rows (earlier : RawDoc) (reportdict : Report)
  (tbl : list ProcessedRow) : list ProcessedRow :=
  firstn (length (fights reportdict)) (skipn (total_attempts earlier) tbl).

(** The groups of [df] in the order in which their keys first occur. *)
Definition groups_of (R : Type) (key : R -> Z) (val : R -> Q) (df : list R)
  : list (Z * Q) :=
  fold_left (fun groups r => Pandas.group_max_add (key r) (val r) groups) df [].

(** [m] is the greatest value of the rows of [df] with key [k]. *)
Definition greatest_of_key (R : Type) (key : R -> Z) (val : R -> Q) (df : list R)
  (k : Z) (m : Q) : Prop :=
  (forall r, In r df -> key r = k -> val r <= m) /\
  (exists r, In r df /\ key r = k /\ val r = m).

(** The column [col] copies the accumulator [acc], which never goes down
    for [le] and starts above [base]: the column is non-decreasing and every
    value of it lies between [base] and the accumulator. *)
Definition running (A : Type) (le : A -> A -> Prop) (acc : LoopState -> A)
  (col : ProgressRow -> A) (base : A) (s : LoopState) : Prop :=
  le base (acc s) /\
  nondecreasing le (map col (processed_fight_prog_data s)) /\
  Forall (fun r => le base (col r) /\ le (col r) (acc s)) (processed_fight_prog_data s).

(** The attempt does not end before it starts. *)
Definition ends_after_start (fightdict : Fight) : Prop :=
  startTime fightdict <= endTime fightdict.

(** No attempt of the document ends before it starts. *)
Definition no_negative_duration (raw : RawDoc) : bool :=
  forallb
    (fun reportdict =>
       forallb (fun fightdict => Qle_bool (startTime fightdict) (endTime fightdict))
               (fights reportdict))
    raw.

(** Rows of the same "Day": an earlier one has the smaller daily sum. *)
Definition nondecreasing_within_day (rows : list ProgressRow) : Prop :=
  forall i j ri rj, (i <= j)%nat ->
    nth_error rows i = Some ri -> nth_error rows j = Some rj ->
    Day ri = Day rj ->
    Daily_Cumulative_Hours ri <= Daily_Cumulative_Hours rj.

(** The "Pull Duration" of the row of every attempt is the duration of the
    attempt in hours: what the specification says of that column. *)
Definition pull_duration_in_hours (raw : RawDoc) (tbl : list ProcessedRow) : Prop :=
  Forall2 (fun fightdict t => Pull_Duration (progress t) == duration_hours fightdict)
          (attempts raw) tbl.

(** [t] carries the maximum of the day: its last column is the greatest
    "Daily Cumulative Hours" of the rows of [tbl] with the "Day" of [t]. *)
Definition carries_day_maximum (tbl : list ProcessedRow) (t : ProcessedRow) : Prop :=
  (forall t', In t' tbl -> Day (progress t') = Day (progress t) ->
     Daily_Cumulative_Hours (progress t') <= Highest_Daily_Cumulative_Hours t) /\
  (exists t', In t' tbl /\ Day (progress t') = Day (progress t) /\
     Daily_Cumulative_Hours (progress t') = Highest_Daily_Cumulative_Hours t).

(** ** Example documents *)

(** The document of the worked example: day 1 with attempts of 600 s and
    1200 s, day 2 with one attempt of 1800 s, newest report first. *)
Definition two_day_doc : RawDoc :=
  [ mkReport "ucob day 2" [mkFight 90000000 91800000 3 (1 # 2)];
    mkReport "ucob day 1" [mkFight 0 600000 1 90; mkFight 1000000 2200000 2 (601 # 10)] ].

(** Attempts whose remaining percentage is outside 0..100 and whose phase is
    negative. *)
Definition out_of_range_doc : RawDoc :=
  [ mkReport "ucob day 2" [mkFight 90000000 91800000 (-1) 150];
    mkReport "ucob day 1" [mkFight 0 600000 (-2) (-20); mkFight 1000000 2200000 (-1) 101] ].

(** One attempt of exactly one hour. *)
Definition one_hour_doc : RawDoc :=
  [ mkReport "ucob day 1" [mkFight 0 3600000 1 50] ].

(** Two reports of the same day: two hours logged first, then one hour. *)
Definition same_day_doc : RawDoc :=
  [ mkReport "ucob day 1" [mkFight 7200000 10800000 1 50];
    mkReport "ucob day 1" [mkFight 0 7200000 1 60] ].

(** ** The fetch stage: the reports that are kept *)

(** [s.startswith(prefix)]. *)
Fixpoint startswith (s prefix : string) {struct prefix} : bool :=
  match prefix with
  | EmptyString => true
  | String p prefix' =>
      match s with
      | EmptyString => false
      | String c s' => Ascii.eqb c p && startswith s' prefix'
      end
  end.

(** Lines 40-41 of [extract_data]: of the reports of the response, those
    whose title starts with "ucob day ", in the order of the response. *)
Definition extract_data_filter (data : RawDoc) : RawDoc :=
  filter (fun reportdata => startswith (title reportdata) "ucob day ") data.

(** ** Vocabulary of the further properties *)

(** Every character of [s] satisfies [p]. *)
Fixpoint string_forallb (p : ascii -> bool) (s : string) : bool :=
  match s with
  | EmptyString => true
  | String c s' => p c && string_forallb p s'
  end.

(** [s] is made of white space only (it may be empty). *)
Definition all_space (s : string) : bool := string_forallb Py.isspace s.

(** [s] has no white space. *)
Definition no_space (s : string) : bool :=
  string_forallb (fun c => negb (Py.isspace c)) s.

(** The usual decimal notation of an integer: a minus sign for a negative
    one, then the digits without leading zeros. *)
Definition decimal (z : Z) : string := NilZero.string_of_int (Z.to_int z).

(** The last element of a list, if there is one. *)
Definition last_row {A : Type} (l : list A) : option A := hd_error (rev l).

(** [l] is linked by [first] and [next]: its first element satisfies
    [first], and every element is in the relation [next] with the element
    that follows it. *)
Definition linked {A : Type} (first : A -> Prop) (next : A -> A -> Prop)
  (l : list A) : Prop :=
  (forall x, nth_error l 0 = Some x -> first x) /\
  (forall j x y, nth_error l j = Some x -> nth_error l (S j) = Some y -> next x y).

(** The row [r] is what the loop makes of the very first attempt: the
    counters and sums start from their initial values (lines 67-70, 73). *)
Definition starts (r : ProgressRow) : Prop :=
  Cumulative_Pulls r = 1%Z /\
  Pull r = 1%Z /\
  Daily_Cumulative_Hours r = 0 + Pull_Duration r / 60 / 60 /\
  Total_Cumulative_Hours r = 0 + Pull_Duration r / 60 / 60 /\
  Historical_Highest_Phase r = Z.max 0 (Pull_Phase r) /\
  Historical_Highest_Fight_Completion r = Py.max 0 (Pull_Fight_Completion r).

(** The row [r'] is what the loop makes of an attempt when [r] is the row
    before: the counters, sums and maxima of [r'] come from those of [r] and
    from the columns of [r'] that record its attempt; the daily sum and the
    index start afresh when [r'] opens a report ("Pull" 1). *)
Definition follows (r r' : ProgressRow) : Prop :=
  Cumulative_Pulls r' = (Cumulative_Pulls r + 1)%Z /\
  Total_Cumulative_Hours r' = Total_Cumulative_Hours r + Pull_Duration r' / 60 / 60 /\
  Historical_Highest_Phase r' = Z.max (Historical_Highest_Phase r) (Pull_Phase r') /\
  Historical_Highest_Fight_Completion r' =
    Py.max (Historical_Highest_Fight_Completion r) (Pull_Fight_Completion r') /\
  if (Pull r' =? 1)%Z
  then Daily_Cumulative_Hours r' = 0 + Pull_Duration r' / 60 / 60
  else Day r' = Day r /\
       Pull r' = (Pull r + 1)%Z /\
       Daily_Cumulative_Hours r' = Daily_Cumulative_Hours r + Pull_Duration r' / 60 / 60.

(** What holds of the variables of the loop after [i] attempts of a report
    of day [day], when [d] is [daily_cumulative_hours]: the rows are linked,
    the outer variables are those of the last row, and so are the variables
    of the report once it has a row. *)
Definition loop_invariant (i : nat) (day : Z) (d : Q) (s : LoopState) : Prop :=
  linked starts follows (processed_fight_prog_data s) /\
  match last_row (processed_fight_prog_data s) with
  | None =>
      cumulative_pulls s = 1%Z /\ total_cumulative_hours s = 0 /\
      highest_phase s = 0%Z /\ highest_fight_completion s = 0
  | Some r =>
      cumulative_pulls s = (Cumulative_Pulls r + 1)%Z /\
      total_cumulative_hours s = Total_Cumulative_Hours r /\
      highest_phase s = Historical_Highest_Phase r /\
      highest_fight_completion s = Historical_Highest_Fight_Completion r
  end /\
  match i with
  | O => d = 0
  | S _ =>
      exists r, last_row (processed_fight_prog_data s) = Some r /\
                Pull r = Z.of_nat i /\ Day r = day /\ Daily_Cumulative_Hours r = d
  end.

(** The sum of a list of rationals. *)
Definition Qsum (l : list Q) : Q := fold_right Qplus 0 l.

(** ** The daily table *)

(** [x] put at its place in a list that is sorted for [leb]. *)
Fixpoint insert_sorted {A : Type} (leb : A -> A -> bool) (x : A) (l : list A) : list A :=
  match l with
  | [] => [x]
  | y :: l' => if leb x y then x :: y :: l' else y :: insert_sorted leb x l'
  end.

(** The elements of [l] in ascending order for [leb]. *)
Definition sorted_by {A : Type} (leb : A -> A -> bool) (l : list A) : list A :=
  fold_right (insert_sorted leb) [] l.

Module Groupby.

(** One more value [v] for the group of key [k], after the values that the
    group has; a key not seen before opens a group. *)
Fixpoint group_add (k : Z) (v : Q) (groups : list (Z * list Q)) : list (Z * list Q) :=
  match groups with
  | [] => [(k, [v])]
  | (k', vs) :: rest =>
      if (k =? k')%Z then (k', vs ++ [v]) :: rest
      else (k', vs) :: group_add k v rest
  end.

(** [df.groupby(key)[val]]: one group per distinct key, with the values of
    the rows that carry the key in the order of the rows; keys ascending. *)
Definition groups {R : Type} (key : R -> Z) (val : R -> Q) (df : list R)
  : list (Z * list Q) :=
  sorted_by (fun a b => (fst a <=? fst b)%Z)
            (fold_left (fun groups r => group_add (key r) (val r) groups) df []).

(** [.mean()] on a group: the sum of the values over their number. *)
Definition mean (vs : list Q) : Q := Qsum vs / inject_Z (Z.of_nat (length vs)).

(** [.median()] on a group: the middle one of the values in ascending order,
    and the mean of the two middle ones when their number is even. *)
Definition median (vs : list Q) : Q :=
  let sorted := sorted_by Qle_bool vs in
  let n := length vs in
  if Nat.even n
  then (nth (n / 2 - 1) sorted 0 + nth (n / 2) sorted 0) / 2
  else nth (n / 2) sorted 0.

End Groupby.

(** One row of [processed_daily_fight_prog_data_df]: the column "Day" and the
    two columns of lines 112-117. *)
Record DailyRow : Type := mkDaily {
  Summary_Day : Z;
  Mean_Daily_Fight_Completion : Q;
  Median_Daily_Fight_Completion : Q
}.

(** Lines 112-117: the frame of the means by day, to which the column of the
    medians by day is added; the two frames have the index 0, 1, ..., on
    which the assignment of the column aligns them. *)
Definition daily_fight_prog (processed_fight_prog_data_df : list ProgressRow)
  : list DailyRow :=
  let mean_df :=
    map (fun g => (fst g, Groupby.mean (snd g)))
        (Groupby.groups Day Pull_Fight_Completion processed_fight_prog_data_df) in
  let median_df :=
    map (fun g => (fst g, Groupby.median (snd g)))
        (Groupby.groups Day Pull_Fight_Completion processed_fight_prog_data_df) in
  map (fun row => {| Summary_Day := fst (fst row);
                     Mean_Daily_Fight_Completion := snd (fst row);
                     Median_Daily_Fight_Completion := snd (snd row) |})
      (combine mean_df median_df).

(** The table written to [daily_fight_prog_processed.csv] (lines 112-117 and
    130-131).  It is made from the twelve columns of the loop, and it is
    written at the end of [process_data], after the first table. *)
Definition process_data_daily (raw_json_dict : RawDoc) : result (list DailyRow) :=
  processed_fight_prog_data_df <- process_data raw_json_dict ;;
  Ok (daily_fight_prog (map progress processed_fight_prog_data_df)).

(** The groups of [df] with their values, in the order in which their keys
    first occur. *)
Definition values_of (R : Type) (key : R -> Z) (val : R -> Q) (df : list R)
  : list (Z * list Q) :=
  fold_left (fun groups r => Groupby.group_add (key r) (val r) groups) df [].

(** The "Pull Fight Completion" of the rows of day [d], in the order of the
    table. *)
Definition day_completions (d : Z) (tbl : list ProcessedRow) : list Q :=
  map (fun t => Pull_Fight_Completion (progress t))
      (filter (fun t => (Day (progress t) =? d)%Z) tbl).

(** [m] is the median of [vs]: either it is one of them and the others fall
    into as many values below it as above it, or it is half the sum of two
    of them, [a] below [b], and the others fall into as many values below
    [a] as above [b]. *)
Definition is_median (m : Q) (vs : list Q) : Prop :=
  (exists lo hi,
     Permutation vs (lo ++ m :: hi) /\ length lo = length hi /\
     Forall (fun v => v <= m) lo /\ Forall (fun v => m <= v) hi) \/
  (exists lo a b hi,
     Permutation vs (lo ++ a :: b :: hi) /\ length lo = length hi /\
     Forall (fun v => v <= a) lo /\ a <= b /\ Forall (fun v => b <= v) hi /\
     m = (a + b) / 2).

(** The remaining percentage of every attempt is between 0 and 100. *)
Definition percentages_in_range (raw : RawDoc) : bool :=
  forallb
    (fun reportdict =>
       forallb (fun fightdict => Qle_bool 0 (fightPercentage fightdict) &&
                                 Qle_bool (fightPercentage fightdict) 100)
               (fights reportdict))
    raw.

(** ** Days that [float64] holds *)

(** [float64] holds [z] and every integer of smaller magnitude exactly: the
    magnitude of [z] is at most 2^53.  Two such integers are equal when
    their [float64] values are. *)
Definition float64_exact (z : Z) : bool := (Z.abs z <=? 2 ^ 53)%Z.

(** The day numbers of the reports are exact as [float64], so that the
    comparison of days of lines 122-125, made on [float64] values, is the
    comparison of the day numbers. *)
Definition days_exact (raw : RawDoc) : bool :=
  forallb (fun reportdict => float64_exact (report_day reportdict)) raw.

(** * Proofs *)

(** ** Loops *)

Lemma bind_ok {A B : Type} (m : result A) (k : A -> result B) (b : B) :
  bind m k = Ok b -> exists a, m = Ok a /\ k a = Ok b.
Proof.
  destruct m as [a | e]; simpl; intros H; [eauto | discriminate].
Qed.

Lemma for_each_app {A S : Type} (body : S -> A -> result S) (xs ys : list A) (s : S) :
  for_each body (xs ++ ys) s = (s' <- for_each body xs s ;; for_each body ys s').
Proof.
  revert s. induction xs as [| x xs IH]; intros s; simpl; [reflexivity |].
  destruct (body s x) as [s1 | e]; simpl; [apply IH | reflexivity].
Qed.

Lemma final_state_nil : final_state [] = Ok initial_state.
Proof. reflexivity. Qed.

Lemma final_state_cons (reportdict : Report) (raw : RawDoc) :
  final_state (reportdict :: raw) = (s <- final_state raw ;; report_body s reportdict).
Proof.
  unfold final_state. simpl rev. rewrite for_each_app. simpl.
  destruct (for_each report_body (rev raw) initial_state) as [s | e]; simpl;
    [destruct (report_body s reportdict); reflexivity | reflexivity].
Qed.

Lemma final_state_app (later earlier : RawDoc) :
  final_state (later ++ earlier) =
  (s <- final_state earlier ;; for_each report_body (rev later) s).
Proof.
  unfold final_state. rewrite rev_app_distr. apply for_each_app.
Qed.

Lemma progress_rows_final_state (raw : RawDoc) :
  progress_rows raw = (s <- final_state raw ;; Ok (processed_fight_prog_data s)).
Proof. reflexivity. Qed.

Lemma report_body_ok (s : LoopState) (reportdict : Report) (s' : LoopState) :
  report_body s reportdict = Ok s' ->
  day_of_title (title reportdict) = Ok (report_day reportdict) /\
  s' = snd (report_loop (report_day reportdict) (fights reportdict) 0 s).
Proof.
  unfold report_body, report_day, report_loop.
  destruct (day_of_title (title reportdict)) as [day | e]; simpl; intros H;
    [injection H as <-; split; reflexivity | discriminate].
Qed.

Lemma report_body_well_formed (s : LoopState) (reportdict : Report) :
  is_ok (day_of_title (title reportdict)) = true ->
  report_body s reportdict =
  Ok (snd (report_loop (report_day reportdict) (fights reportdict) 0 s)).
Proof.
  unfold report_body, report_day, report_loop.
  destruct (day_of_title (title reportdict)) as [day | e]; simpl; intros H;
    [reflexivity | discriminate].
Qed.

Lemma final_state_titles_parse (raw : RawDoc) :
  titles_parse raw = true -> exists s, final_state raw = Ok s.
Proof.
  induction raw as [| reportdict raw IH]; simpl; intros H.
  - eexists. reflexivity.
  - apply andb_true_iff in H as [Ht Hraw].
    destruct (IH Hraw) as [s Hs].
    rewrite final_state_cons, Hs. simpl.
    rewrite (report_body_well_formed _ _ Ht). eauto.
Qed.

Lemma combine_app_same_length {A B : Type} (l1 l2 : list A) (m1 m2 : list B) :
  length l1 = length m1 ->
  combine (l1 ++ l2) (m1 ++ m2) = combine l1 m1 ++ combine l2 m2.
Proof.
  revert m1. induction l1 as [| a l1 IH]; intros [| b m1] H; simpl in *;
    try discriminate; [reflexivity |].
  f_equal. apply IH. lia.
Qed.

Lemma enumerate_snoc {A : Type} (xs : list A) (x : A) :
  Py.enumerate (xs ++ [x]) = Py.enumerate xs ++ [(length xs, x)].
Proof.
  unfold Py.enumerate. rewrite length_app. simpl length.
  rewrite seq_app. simpl seq.
  rewrite combine_app_same_length by (now rewrite length_seq).
  reflexivity.
Qed.

Lemma report_loop_nil (day : Z) (d : Q) (s : LoopState) :
  report_loop day [] d s = (d, s).
Proof. reflexivity. Qed.

Lemma report_loop_snoc (day : Z) (fs : list Fight) (f : Fight) (d : Q) (s : LoopState) :
  report_loop day (fs ++ [f]) d s =
  pull_body day (report_loop day fs d s) (length fs, f).
Proof.
  unfold report_loop. rewrite enumerate_snoc, fold_left_app. reflexivity.
Qed.

Lemma report_loop_block (day : Z) (fs : list Fight) (d : Q) (s : LoopState) :
  exists block,
    processed_fight_prog_data (snd (report_loop day fs d s)) =
      processed_fight_prog_data s ++ block /\
    Forall2 records_item
      (map (fun item => (day, fst item, snd item)) (Py.enumerate fs)) block /\
    cumulative_pulls (snd (report_loop day fs d s)) =
      (cumulative_pulls s + Z.of_nat (length fs))%Z /\
    map Cumulative_Pulls block =
      map (fun i => (cumulative_pulls s + Z.of_nat i)%Z) (seq 0 (length fs)).
Proof.
  induction fs as [| f fs IH] using rev_ind.
  - exists []. rewrite report_loop_nil. simpl.
    rewrite app_nil_r, Z.add_0_r. repeat split; constructor.
  - destruct IH as (block & Hrows & Hrec & Hcp & Hcol).
    rewrite report_loop_snoc.
    destruct (report_loop day fs d s) as [d1 s1]. simpl in Hrows, Hcp |- *.
    eexists (block ++ [_]). rewrite Hrows, <- app_assoc. split; [reflexivity |].
    split; [| split].
    + rewrite enumerate_snoc, map_app. apply Forall2_app; [exact Hrec |].
      constructor; [| constructor]. repeat split.
    + rewrite Hcp, length_app. simpl. lia.
    + rewrite map_app, length_app, seq_app, map_app, Hcol, Hcp. reflexivity.
Qed.

Lemma length_enumerate {A : Type} (xs : list A) : length (Py.enumerate xs) = length xs.
Proof.
  unfold Py.enumerate. rewrite length_combine, length_seq. apply Nat.min_id.
Qed.

Lemma map_snd_enumerate {A : Type} (xs : list A) : map snd (Py.enumerate xs) = xs.
Proof.
  induction xs as [| x xs IH] using rev_ind; [reflexivity |].
  rewrite enumerate_snoc, map_app, IH. reflexivity.
Qed.

Lemma map_seq_offset {A : Type} (f : nat -> A) (n0 k m : nat) :
  map (fun i => f (n0 + i)%nat) (seq k m) = map f (seq (n0 + k) m).
Proof.
  revert k. induction m as [| m IH]; intros k; simpl; [reflexivity |].
  f_equal. rewrite IH. f_equal. f_equal. lia.
Qed.

Lemma indexed_attempts_cons (reportdict : Report) (raw : RawDoc) :
  indexed_attempts (reportdict :: raw) =
  indexed_attempts raw ++
  map (fun item => (report_day reportdict, fst item, snd item))
      (Py.enumerate (fights reportdict)).
Proof.
  unfold indexed_attempts. simpl rev. rewrite flat_map_app. simpl.
  now rewrite app_nil_r.
Qed.

Lemma attempts_cons (reportdict : Report) (raw : RawDoc) :
  attempts (reportdict :: raw) = attempts raw ++ fights reportdict.
Proof.
  unfold attempts. simpl rev. rewrite flat_map_app. simpl. now rewrite app_nil_r.
Qed.

Lemma map_snd_indexed_attempts (raw : RawDoc) :
  map snd (indexed_attempts raw) = attempts raw.
Proof.
  induction raw as [| reportdict raw IH]; [reflexivity |].
  rewrite indexed_attempts_cons, attempts_cons, map_app, IH, map_map. simpl.
  now rewrite map_snd_enumerate.
Qed.

Lemma length_attempts (raw : RawDoc) : length (attempts raw) = total_attempts raw.
Proof.
  induction raw as [| reportdict raw IH]; [reflexivity |].
  rewrite attempts_cons, length_app, IH. unfold total_attempts. simpl. lia.
Qed.

Lemma length_indexed_attempts (raw : RawDoc) :
  length (indexed_attempts raw) = total_attempts raw.
Proof.
  rewrite <- length_attempts, <- map_snd_indexed_attempts. now rewrite length_map.
Qed.

(** The columns that record the attempt, and the running count, after the
    whole loop. *)
Lemma final_state_rows (raw : RawDoc) (s : LoopState) :
  final_state raw = Ok s ->
  Forall2 records_item (indexed_attempts raw) (processed_fight_prog_data s) /\
  cumulative_pulls s = (1 + Z.of_nat (length (processed_fight_prog_data s)))%Z /\
  map Cumulative_Pulls (processed_fight_prog_data s) =
    map (fun i => (1 + Z.of_nat i)%Z) (seq 0 (length (processed_fight_prog_data s))).
Proof.
  revert s. induction raw as [| reportdict raw IH]; intros s Hs.
  - rewrite final_state_nil in Hs. injection Hs as <-. simpl.
    repeat split; constructor.
  - rewrite final_state_cons in Hs. apply bind_ok in Hs as (s0 & Hs0 & Hbody).
    apply report_body_ok in Hbody as [_ ->].
    destruct (IH s0 Hs0) as (Hrec & Hcp & Hcol).
    destruct (report_loop_block (report_day reportdict) (fights reportdict) 0 s0)
      as (block & Hrows & Hblock & Hcp' & Hcol').
    assert (Hlen : length block = length (fights reportdict)).
    { apply Forall2_length in Hblock.
      now rewrite length_map, length_enumerate in Hblock. }
    rewrite Hrows, indexed_attempts_cons. split; [| split].
    + now apply Forall2_app.
    + rewrite Hcp', Hcp, length_app, Hlen. lia.
    + rewrite map_app, length_app, seq_app, map_app, Hcol, Hcol', Hcp, Hlen.
      f_equal.
      replace (0 + length (processed_fight_prog_data s0))%nat
        with (length (processed_fight_prog_data s0) + 0)%nat by lia.
      rewrite <- (map_seq_offset (fun i => (1 + Z.of_nat i)%Z)).
      apply map_ext. intros i. lia.
Qed.

Lemma final_state_length (raw : RawDoc) (s : LoopState) :
  final_state raw = Ok s ->
  length (processed_fight_prog_data s) = total_attempts raw.
Proof.
  intros Hs. destruct (final_state_rows _ Hs) as (Hrec & _).
  apply Forall2_length in Hrec. now rewrite <- Hrec, length_indexed_attempts.
Qed.

(** ** [max] on floats *)

Lemma py_max_cases (a b : Q) : Py.max a b = a \/ Py.max a b = b.
Proof. unfold Py.max. destruct (a ?= b); auto. Qed.

Lemma py_max_le_l (a b : Q) : a <= Py.max a b.
Proof.
  unfold Py.max. destruct (Qcompare_spec a b) as [H | H | H];
    [apply Qle_refl | now apply Qlt_le_weak | apply Qle_refl].
Qed.

Lemma py_max_le_r (a b : Q) : b <= Py.max a b.
Proof.
  unfold Py.max. destruct (Qcompare_spec a b) as [H | H | H].
  - rewrite H. apply Qle_refl.
  - apply Qle_refl.
  - now apply Qlt_le_weak.
Qed.

(** ** The per-day maximum *)

Section GroupByMax.

Variable R : Type.
Variable key : R -> Z.
Variable val : R -> Q.

Lemma group_max_add_keys (k : Z) (v : Q) (groups : list (Z * Q)) (k' : Z) :
  In k' (map fst (Pandas.group_max_add k v groups)) <->
  k' = k \/ In k' (map fst groups).
Proof.
  induction groups as [| [k0 m0] groups IH]; simpl.
  - intuition.
  - destruct (Z.eqb_spec k k0) as [-> | Hne]; simpl; [intuition |].
    rewrite IH. intuition.
Qed.

Lemma group_max_add_NoDup (k : Z) (v : Q) (groups : list (Z * Q)) :
  NoDup (map fst groups) -> NoDup (map fst (Pandas.group_max_add k v groups)).
Proof.
  induction groups as [| [k0 m0] groups IH]; simpl; intros Hnd.
  - constructor; [intros [] | constructor].
  - inversion Hnd as [| ? ? Hnotin Hnd']; subst.
    destruct (Z.eqb_spec k k0) as [-> | Hne]; simpl.
    + now constructor.
    + constructor; [| now apply IH].
      rewrite group_max_add_keys. intros [-> | Hin]; [now apply Hne | now apply Hnotin].
Qed.

Lemma group_max_add_In (k : Z) (v : Q) (groups : list (Z * Q)) (k' : Z) (m' : Q) :
  NoDup (map fst groups) ->
  In (k', m') (Pandas.group_max_add k v groups) ->
  (k' <> k /\ In (k', m') groups) \/
  (k' = k /\ exists m, In (k, m) groups /\ m' = Py.max m v) \/
  (k' = k /\ ~ In k (map fst groups) /\ m' = v).
Proof.
  induction groups as [| [k0 m0] groups IH]; simpl; intros Hnd.
  - intros [H | []]. injection H as <- <-. right. right. intuition.
  - inversion Hnd as [| ? ? Hnotin Hnd']; subst.
    destruct (Z.eqb_spec k k0) as [-> | Hne]; simpl.
    + intros [H | H].
      * injection H as <- <-. right. left. split; [reflexivity |].
        exists m0. split; [now left | reflexivity].
      * left. split; [| now right].
        intros ->. apply Hnotin. now apply (in_map fst) in H.
    + intros [H | H].
      * injection H as <- <-. left. split; [congruence | now left].
      * destruct (IH Hnd' H) as [[Hk Hin] | [[Hk (m & Hin & Hm)] | (Hk & Hnin & Hm)]].
        -- left. split; [assumption | now right].
        -- right. left. split; [assumption |]. exists m. split; [now right | assumption].
        -- right. right. split; [assumption |]. split; [| assumption].
           intros [Heq | Hin]; [now apply Hne | now apply Hnin].
Qed.

Lemma groups_of_snoc (df : list R) (r : R) :
  groups_of key val (df ++ [r]) = Pandas.group_max_add (key r) (val r) (groups_of key val df).
Proof. unfold groups_of. now rewrite fold_left_app. Qed.

Lemma groups_of_spec (df : list R) :
  NoDup (map fst (groups_of key val df)) /\
  (forall r, In r df -> In (key r) (map fst (groups_of key val df))) /\
  (forall k m, In (k, m) (groups_of key val df) -> greatest_of_key key val df k m).
Proof.
  induction df as [| r df IH] using rev_ind.
  - split; [constructor | split]; [intros r [] | intros k m []].
  - destruct IH as (Hnd & Hkeys & Hmax). rewrite groups_of_snoc.
    split; [now apply group_max_add_NoDup | split].
    + intros r' Hin. rewrite group_max_add_keys.
      apply in_app_or in Hin as [Hin | [<- | []]]; [right; now apply Hkeys | now left].
    + intros k m Hin.
      apply (group_max_add_In _ _ _ _ _ Hnd) in Hin
        as [[Hk Hin] | [[Hk (m0 & Hin & Hm)] | (Hk & Hnin & Hm)]].
      * destruct (Hmax _ _ Hin) as (Hub & r0 & Hr0 & Hkey0 & Hval0). split.
        -- intros r' Hr' Hkey'.
           apply in_app_or in Hr' as [Hr' | [<- | []]]; [now apply Hub | congruence].
        -- exists r0. split; [apply in_or_app; now left | now split].
      * subst k. destruct (Hmax _ _ Hin) as (Hub & r0 & Hr0 & Hkey0 & Hval0). split.
        -- intros r' Hr' Hkey'. subst m.
           apply in_app_or in Hr' as [Hr' | [<- | []]].
           ++ eapply Qle_trans; [now apply Hub | apply py_max_le_l].
           ++ apply py_max_le_r.
        -- destruct (py_max_cases m0 (val r)) as [Hc | Hc]; rewrite Hc in Hm; subst m.
           ++ exists r0. split; [apply in_or_app; now left | now split].
           ++ exists r. split; [apply in_or_app; right; now left | now split].
      * subst k m. split.
        -- intros r' Hr' Hkey'.
           apply in_app_or in Hr' as [Hr' | [<- | []]]; [| apply Qle_refl].
           exfalso. apply Hnin. rewrite <- Hkey'. now apply Hkeys.
        -- exists r. split; [apply in_or_app; right; now left | now split].
Qed.

Lemma groupby_max_spec (df : list R) :
  NoDup (map fst (Pandas.groupby_max key val df)) /\
  (forall r, In r df -> In (key r) (map fst (Pandas.groupby_max key val df))) /\
  (forall k m, In (k, m) (Pandas.groupby_max key val df) -> greatest_of_key key val df k m).
Proof.
  destruct (groups_of_spec df) as (Hnd & Hkeys & Hmax).
  pose proof (GroupSort.Permuted_sort (groups_of key val df)) as Hperm.
  change (GroupSort.sort (groups_of key val df)) with (Pandas.groupby_max key val df) in Hperm.
  split; [| split].
  - eapply Permutation_NoDup; [apply Permutation_map, Hperm | exact Hnd].
  - intros r Hr. eapply Permutation_in; [apply Permutation_map, Hperm | now apply Hkeys].
  - intros k m Hin. apply Hmax.
    eapply Permutation_in; [apply Permutation_sym, Hperm | exact Hin].
Qed.

End GroupByMax.

Lemma loc_unique (k : Z) (m : Q) (groups : list (Z * Q)) :
  NoDup (map fst groups) -> In (k, m) groups -> Pandas.loc k groups = [m].
Proof.
  unfold Pandas.loc.
  induction groups as [| [k0 m0] groups IH]; simpl; intros Hnd Hin; [contradiction |].
  inversion Hnd as [| ? ? Hnotin Hnd']; subst.
  destruct Hin as [H | Hin].
  - injection H as -> ->. rewrite Z.eqb_refl. simpl. f_equal.
    assert (Hnone : forall g, In g groups -> (fst g =? k)%Z = false).
    { intros g Hg. apply Z.eqb_neq. intros <-. apply Hnotin. now apply in_map. }
    clear - Hnone. induction groups as [| g groups IH]; [reflexivity |].
    simpl. rewrite (Hnone g) by now left. apply IH. intros g' Hg'. apply Hnone. now right.
  - destruct (Z.eqb_spec k0 k) as [-> | Hne].
    + exfalso. apply Hnotin. now apply (in_map fst) in Hin.
    + now apply IH.
Qed.

(** ** The table of [process_data] *)

Lemma map_result_total {A B : Type} (f : A -> result B) (xs : list A) :
  (forall x, In x xs -> exists y, f x = Ok y) ->
  exists ys, map_result f xs = Ok ys /\ Forall2 (fun x y => f x = Ok y) xs ys.
Proof.
  induction xs as [| x xs IH]; intros H; simpl.
  - exists []. split; [reflexivity | constructor].
  - destruct (H x (or_introl eq_refl)) as [y Hy].
    destruct IH as (ys & Hys & Hall); [intros x' Hx'; apply H; now right |].
    exists (y :: ys). rewrite Hy, Hys. split; [reflexivity | now constructor].
Qed.

Lemma column_map_progress {A : Type} (col : ProgressRow -> A) (tbl : list ProcessedRow) :
  column col tbl = map col (map progress tbl).
Proof. unfold column. now rewrite map_map. Qed.

(** [process_data] returns whenever the loop does; its table has the rows of
    the loop, and each row carries the greatest daily value of its day. *)
Lemma process_data_spec (raw : RawDoc) (rows : list ProgressRow) :
  progress_rows raw = Ok rows ->
  rows <> [] ->
  exists tbl,
    process_data raw = Ok tbl /\
    map progress tbl = rows /\
    Forall (fun t => greatest_of_key Day Daily_Cumulative_Hours rows
                       (Day (progress t)) (Highest_Daily_Cumulative_Hours t)) tbl.
Proof.
  intros Hrows Hne. unfold process_data. rewrite Hrows. simpl.
  assert (Happly : forall (f : ProgressRow -> result ProcessedRow),
            Pandas.assign_apply f rows = map_result f rows)
    by (intros f; destruct rows; [contradiction | reflexivity]).
  rewrite Happly. clear Happly.
  destruct (groupby_max_spec Day Daily_Cumulative_Hours rows) as (Hnd & Hkeys & Hmax).
  set (groups := Pandas.groupby_max Day Daily_Cumulative_Hours rows) in *.
  assert (Hlook : forall row, In row rows ->
            exists m, In (Day row, m) groups /\ Pandas.loc (Day row) groups = [m]).
  { intros row Hrow. specialize (Hkeys row Hrow).
    apply in_map_iff in Hkeys as ([k m] & Hk & Hin). simpl in Hk. subst k.
    exists m. split; [assumption | now apply loc_unique]. }
  destruct (map_result_total
              (fun row => h <- Pandas.item (Pandas.loc (Day row) groups) ;;
                          Ok {| progress := row; Highest_Daily_Cumulative_Hours := h |})
              rows) as (tbl & Htbl & Hall).
  { intros row Hrow. destruct (Hlook row Hrow) as (m & _ & Hloc).
    rewrite Hloc. simpl. eauto. }
  exists tbl. split; [exact Htbl |].
  assert (Hgen : forall xs ys,
    Forall2 (fun row t =>
               (h <- Pandas.item (Pandas.loc (Day row) groups) ;;
                Ok {| progress := row; Highest_Daily_Cumulative_Hours := h |}) = Ok t)
            xs ys ->
    (forall row, In row xs -> In row rows) ->
    map progress ys = xs /\
    Forall (fun t => In (Day (progress t), Highest_Daily_Cumulative_Hours t) groups) ys).
  { intros xs ys H. induction H as [| row t xs ys Hrt _ IH]; intros Hsub.
    - split; constructor.
    - destruct IH as [IHmap IHin]; [intros r Hr; apply Hsub; now right |].
      destruct (Hlook row (Hsub row (or_introl eq_refl))) as (m & Hin & Hloc).
      rewrite Hloc in Hrt. simpl in Hrt. injection Hrt as <-. simpl.
      split; [now f_equal | now constructor]. }
  destruct (Hgen rows tbl Hall (fun _ H => H)) as [Hmap Hin].
  split; [exact Hmap |].
  eapply Forall_impl; [| exact Hin]. intros t Ht. now apply Hmax.
Qed.

Lemma process_data_well_formed (raw : RawDoc) :
  well_formed raw = true ->
  exists s tbl,
    final_state raw = Ok s /\
    process_data raw = Ok tbl /\
    map progress tbl = processed_fight_prog_data s /\
    Forall (fun t => greatest_of_key Day Daily_Cumulative_Hours
                       (processed_fight_prog_data s)
                       (Day (progress t)) (Highest_Daily_Cumulative_Hours t)) tbl.
Proof.
  intros Hwf. apply andb_true_iff in Hwf as [Htitles Hsome].
  destruct (final_state_titles_parse _ Htitles) as [s Hs].
  destruct (process_data_spec raw (rows := processed_fight_prog_data s))
    as (tbl & Htbl & Hmap & Hmax).
  { rewrite progress_rows_final_state, Hs. reflexivity. }
  { intros Hnil. apply (f_equal (@length _)) in Hnil.
    rewrite (final_state_length _ Hs) in Hnil. simpl in Hnil.
    rewrite Hnil in Hsome. discriminate. }
  exists s, tbl. auto.
Qed.

Lemma final_state_ok_titles_parse (raw : RawDoc) (s : LoopState) :
  final_state raw = Ok s -> titles_parse raw = true.
Proof.
  revert s. induction raw as [| reportdict raw IH]; intros s Hs; [reflexivity |].
  rewrite final_state_cons in Hs. apply bind_ok in Hs as (s0 & Hs0 & Hbody).
  apply report_body_ok in Hbody as [Hday _].
  simpl. rewrite Hday, (IH _ Hs0). reflexivity.
Qed.

(** The valid documents are those on which [process_data] returns. *)
Lemma process_data_returns_iff (raw : RawDoc) :
  is_ok (process_data raw) = well_formed raw.
Proof.
  destruct (well_formed raw) eqn:Hwf.
  - destruct (process_data_well_formed _ Hwf) as (s & tbl & _ & -> & _). reflexivity.
  - destruct (process_data raw) as [tbl | e] eqn:Htbl; [| reflexivity].
    exfalso. unfold process_data in Htbl.
    apply bind_ok in Htbl as (rows & Hrows & Happly).
    rewrite progress_rows_final_state in Hrows.
    apply bind_ok in Hrows as (s & Hs & Hrows). injection Hrows as <-.
    unfold well_formed in Hwf.
    rewrite (final_state_ok_titles_parse _ Hs), <- (final_state_length _ Hs) in Hwf.
    destruct (processed_fight_prog_data s); simpl in *; discriminate.
Qed.

(** ** Non-decreasing columns *)

Lemma nondecreasing_nil {A : Type} (le : A -> A -> Prop) : nondecreasing le [].
Proof. intros i j x y _ Hi. destruct i; discriminate. Qed.

Lemma nondecreasing_snoc {A : Type} (le : A -> A -> Prop) (l : list A) (y : A) :
  nondecreasing le l -> Forall (fun x => le x y) l -> le y y ->
  nondecreasing le (l ++ [y]).
Proof.
  intros Hl Hall Hy i j a b Hij Hi Hj.
  assert (Hjlen : (j < length (l ++ [y]))%nat)
    by (apply nth_error_Some; congruence).
  rewrite length_app in Hjlen. simpl in Hjlen.
  destruct (Nat.lt_ge_cases j (length l)) as [Hjl | Hjl].
  - rewrite nth_error_app1 in Hi, Hj by lia. eauto.
  - assert (j = length l) by lia. subst j.
    rewrite nth_error_app2, Nat.sub_diag in Hj by lia. injection Hj as <-.
    destruct (Nat.lt_ge_cases i (length l)) as [Hil | Hil].
    + rewrite nth_error_app1 in Hi by lia.
      rewrite Forall_forall in Hall. apply Hall. eapply nth_error_In, Hi.
    + assert (i = length l) by lia. subst i.
      rewrite nth_error_app2, Nat.sub_diag in Hi by lia. now injection Hi as <-.
Qed.

(** A column that copies an accumulator which never goes down.  [acc] is the
    accumulator, [col] the column that receives its value at each attempt,
    [good] what is asked of the attempts, [base] a bound below the initial
    value. *)
Section RunningColumn.

Variable A : Type.
Variable le : A -> A -> Prop.
Hypothesis le_refl : forall x, le x x.
Hypothesis le_trans : forall x y z, le x y -> le y z -> le x z.
Variable acc : LoopState -> A.
Variable col : ProgressRow -> A.
Variable good : Fight -> Prop.
Variable base : A.
Hypothesis base_initial : le base (acc initial_state).
Hypothesis step : forall day d s i f, good f ->
  le (acc s) (acc (snd (pull_body day (d, s) (i, f)))) /\
  exists r,
    processed_fight_prog_data (snd (pull_body day (d, s) (i, f))) =
      processed_fight_prog_data s ++ [r] /\
    col r = acc (snd (pull_body day (d, s) (i, f))).

Lemma running_initial : running le acc col base initial_state.
Proof.
  split; [exact base_initial | split]; [apply nondecreasing_nil | constructor].
Qed.

Lemma running_pull_body (day : Z) (d : Q) (s : LoopState) (i : nat) (f : Fight) :
  good f -> running le acc col base s -> running le acc col base (snd (pull_body day (d, s) (i, f))).
Proof.
  intros Hgood (Hbase & Hmono & Hall).
  destruct (step day d s i Hgood) as (Hle & r & Hrows & Hcol).
  set (s' := snd (pull_body day (d, s) (i, f))) in *. clearbody s'.
  unfold running. rewrite Hrows, map_app. simpl map.
  split; [eauto | split].
  - apply nondecreasing_snoc; [assumption | | apply le_refl].
    apply Forall_map. eapply Forall_impl; [| exact Hall].
    intros r' [_ Hr']. rewrite Hcol. eauto.
  - apply Forall_app. split.
    + eapply Forall_impl; [| exact Hall]. intros r' [Hb Hr']. eauto.
    + constructor; [| constructor]. rewrite Hcol. split; [eauto | apply le_refl].
Qed.

Lemma running_report_loop (day : Z) (fs : list Fight) (d : Q) (s : LoopState) :
  Forall good fs -> running le acc col base s -> running le acc col base (snd (report_loop day fs d s)).
Proof.
  intros Hgood Hs. induction fs as [| f fs IH] using rev_ind; [exact Hs |].
  apply Forall_app in Hgood as [Hfs Hf]. inversion Hf as [| ? ? Hgf _]; subst.
  rewrite report_loop_snoc. specialize (IH Hfs).
  destruct (report_loop day fs d s) as [d1 s1]. now apply running_pull_body.
Qed.

Lemma running_final_state (raw : RawDoc) (s : LoopState) :
  (forall reportdict, In reportdict raw -> Forall good (fights reportdict)) ->
  final_state raw = Ok s -> running le acc col base s.
Proof.
  revert s. induction raw as [| reportdict raw IH]; intros s Hgood Hs.
  - rewrite final_state_nil in Hs. injection Hs as <-. apply running_initial.
  - rewrite final_state_cons in Hs. apply bind_ok in Hs as (s0 & Hs0 & Hbody).
    apply report_body_ok in Hbody as [_ ->].
    apply running_report_loop; [apply Hgood; now left |].
    apply IH; [| assumption]. intros r Hr. apply Hgood. now right.
Qed.

End RunningColumn.

(** The three accumulators that are copied into a column. *)

Lemma no_negative_duration_spec (raw : RawDoc) :
  no_negative_duration raw = true ->
  forall reportdict, In reportdict raw -> Forall ends_after_start (fights reportdict).
Proof.
  unfold no_negative_duration. rewrite forallb_forall. intros H reportdict Hin.
  specialize (H reportdict Hin). rewrite forallb_forall in H.
  apply Forall_forall. intros f Hf. apply Qle_bool_iff. now apply H.
Qed.

Lemma hours_nonneg (fightdict : Fight) :
  ends_after_start fightdict -> 0 <= pull_duration fightdict / 60 / 60.
Proof.
  unfold ends_after_start, pull_duration, Qdiv. intros H.
  apply Qle_minus_iff in H.
  repeat apply Qmult_le_0_compat; try assumption; unfold Qle; simpl; lia.
Qed.

Lemma Qplus_nonneg_le (x h : Q) : 0 <= h -> x <= x + h.
Proof.
  intros H. rewrite <- (Qplus_0_r x) at 1. now apply Qplus_le_r.
Qed.

Lemma running_highest_phase (raw : RawDoc) (s : LoopState) :
  final_state raw = Ok s ->
  running Z.le highest_phase Historical_Highest_Phase 0%Z s.
Proof.
  apply (running_final_state Z.le Z.le_refl Z.le_trans highest_phase
           Historical_Highest_Phase (good := fun _ => True) 0%Z).
  - apply Z.le_refl.
  - intros day d s0 i f _. simpl. split; [apply Z.le_max_l | eauto].
  - intros reportdict _. apply Forall_forall. trivial.
Qed.

Lemma running_highest_fight_completion (raw : RawDoc) (s : LoopState) :
  final_state raw = Ok s ->
  running Qle highest_fight_completion Historical_Highest_Fight_Completion 0 s.
Proof.
  apply (running_final_state Qle Qle_refl Qle_trans highest_fight_completion
           Historical_Highest_Fight_Completion (good := fun _ => True) 0).
  - apply Qle_refl.
  - intros day d s0 i f _. simpl. split; [apply py_max_le_l | eauto].
  - intros reportdict _. apply Forall_forall. trivial.
Qed.

Lemma running_total_cumulative_hours (raw : RawDoc) (s : LoopState) :
  no_negative_duration raw = true ->
  final_state raw = Ok s ->
  running Qle total_cumulative_hours Total_Cumulative_Hours 0 s.
Proof.
  intros Hdur.
  apply (running_final_state Qle Qle_refl Qle_trans total_cumulative_hours
           Total_Cumulative_Hours (good := ends_after_start) 0).
  - apply Qle_refl.
  - intros day d s0 i f Hf. simpl.
    split; [apply Qplus_nonneg_le; now apply hours_nonneg | eauto].
  - now apply no_negative_duration_spec.
Qed.

Lemma Forall2_eq_map {A B C : Type} (g : A -> C) (h : B -> C) (l : list A) (l' : list B) :
  Forall2 (fun x y => h y = g x) l l' -> map h l' = map g l.
Proof. induction 1; simpl; [reflexivity | now f_equal]. Qed.

(** Every row of the final table records its attempt. *)
Lemma table_records (raw : RawDoc) (s : LoopState) (tbl : list ProcessedRow) :
  final_state raw = Ok s ->
  map progress tbl = processed_fight_prog_data s ->
  Forall2 (fun item t => records_item item (progress t)) (indexed_attempts raw) tbl.
Proof.
  intros Hs Hmap. destruct (final_state_rows _ Hs) as (Hrec & _).
  rewrite <- Hmap in Hrec. clear - Hrec.
  remember (map progress tbl) as rows eqn:E. revert tbl E.
  induction Hrec as [| item r items rows Hr _ IH]; intros [| t tbl] E;
    try discriminate; constructor.
  - injection E as -> _. exact Hr.
  - injection E as _ E. now apply IH.
Qed.

Lemma map_flat_map {A B C : Type} (h : B -> C) (F : A -> list B) (l : list A) :
  map h (flat_map F l) = flat_map (fun x => map h (F x)) l.
Proof.
  induction l as [| x l IH]; simpl; [reflexivity |]. now rewrite map_app, IH.
Qed.

(** ** The rows of one report *)

(** The "Daily Cumulative Hours" of the rows that one report adds. *)
Lemma report_loop_daily (day : Z) (fs : list Fight) (s : LoopState) :
  exists block,
    processed_fight_prog_data (snd (report_loop day fs 0 s)) =
      processed_fight_prog_data s ++ block /\
    (forall f0 rest, fs = f0 :: rest ->
       exists r0 others,
         block = r0 :: others /\
         Daily_Cumulative_Hours r0 = 0 + pull_duration f0 / 60 / 60) /\
    (Forall ends_after_start fs ->
       nondecreasing Qle (map Daily_Cumulative_Hours block) /\
       Forall (fun r => Daily_Cumulative_Hours r <= fst (report_loop day fs 0 s)) block).
Proof.
  induction fs as [| f fs IH] using rev_ind.
  - exists []. rewrite report_loop_nil. simpl. rewrite app_nil_r.
    split; [reflexivity | split].
    + intros f0 rest H. discriminate.
    + intros _. split; [apply nondecreasing_nil | constructor].
  - destruct IH as (block & Hrows & Hfirst & Hmono).
    rewrite report_loop_snoc.
    assert (Hstart : fs = [] -> block = [] /\ fst (report_loop day fs 0 s) = 0).
    { intros ->. rewrite report_loop_nil in Hrows |- *. simpl in Hrows.
      split; [| reflexivity].
      apply (app_inv_head (processed_fight_prog_data s)). now rewrite app_nil_r. }
    destruct (report_loop day fs 0 s) as [d1 s1]. simpl in Hrows, Hmono, Hstart |- *.
    eexists (block ++ [_]). rewrite Hrows, <- app_assoc.
    split; [reflexivity | split].
    + intros f0 rest Heq. destruct fs as [| f1 fs1].
      * destruct (Hstart eq_refl) as [-> ->]. injection Heq as <- _.
        simpl. eauto.
      * injection Heq as <- _.
        destruct (Hfirst f1 fs1 eq_refl) as (r0 & others & -> & Hr0).
        simpl. eauto.
    + intros Hgood. apply Forall_app in Hgood as [Hfs Hf].
      inversion Hf as [| ? ? Hgf _]; subst.
      destruct (Hmono Hfs) as [Hnd Hle].
      pose proof (Qplus_nonneg_le d1 (hours_nonneg Hgf)) as Hstep.
      split.
      * rewrite map_app. simpl map. apply nondecreasing_snoc; [assumption | | apply Qle_refl].
        apply Forall_map. eapply Forall_impl; [| exact Hle].
        intros r Hr. exact (Qle_trans _ _ _ Hr Hstep).
      * apply Forall_app. split.
        -- eapply Forall_impl; [| exact Hle].
           intros r Hr. exact (Qle_trans _ _ _ Hr Hstep).
        -- constructor; [apply Qle_refl | constructor].
Qed.

(** The loop only appends. *)
Lemma for_each_report_body_extends (reports : list Report) (s s' : LoopState) :
  for_each report_body reports s = Ok s' ->
  exists rest, processed_fight_prog_data s' = processed_fight_prog_data s ++ rest.
Proof.
  revert s. induction reports as [| reportdict reports IH]; simpl; intros s H.
  - injection H as <-. exists []. now rewrite app_nil_r.
  - apply bind_ok in H as (s1 & Hbody & Hrest).
    apply report_body_ok in Hbody as [_ ->].
    destruct (report_loop_block (report_day reportdict) (fights reportdict) 0 s)
      as (block & Hrows & _).
    destruct (IH _ Hrest) as (rest & Hrest').
    exists (block ++ rest). now rewrite Hrest', Hrows, app_assoc.
Qed.

(** The rows of the report [reportdict] of the document
    [later ++ reportdict :: earlier]: they come after the rows of [earlier],
    and they are the rows that its inner loop adds. *)
Lemma final_state_report_rows (later earlier : RawDoc) (reportdict : Report)
  (s : LoopState) :
  final_state (later ++ reportdict :: earlier) = Ok s ->
  exists s0 block rest,
    final_state earlier = Ok s0 /\
    length (processed_fight_prog_data s0) = total_attempts earlier /\
    processed_fight_prog_data
      (snd (report_loop (report_day reportdict) (fights reportdict) 0 s0)) =
      processed_fight_prog_data s0 ++ block /\
    length block = length (fights reportdict) /\
    Forall2 records_item
      (map (fun item => (report_day reportdict, fst item, snd item))
           (Py.enumerate (fights reportdict))) block /\
    processed_fight_prog_data s = processed_fight_prog_data s0 ++ block ++ rest.
Proof.
  intros Hs. rewrite final_state_app in Hs. apply bind_ok in Hs as (s1 & Hs1 & Hlater).
  rewrite final_state_cons in Hs1. apply bind_ok in Hs1 as (s0 & Hs0 & Hbody).
  apply report_body_ok in Hbody as [_ ->].
  destruct (report_loop_block (report_day reportdict) (fights reportdict) 0 s0)
    as (block & Hrows & Hrec & _).
  destruct (for_each_report_body_extends _ _ Hlater) as (rest & Hrest).
  exists s0, block, rest. split; [exact Hs0 |].
  split; [now apply final_state_length |].
  split; [exact Hrows |]. split.
  - apply Forall2_length in Hrec. now rewrite length_map, length_enumerate in Hrec.
  - split; [exact Hrec |]. now rewrite Hrest, Hrows, app_assoc.
Qed.

Lemma report_rows_block (earlier : RawDoc) (reportdict : Report)
  (tbl : list ProcessedRow) (prefix block rest : list ProgressRow) :
  map progress tbl = prefix ++ block ++ rest ->
  length prefix = total_attempts earlier ->
  length block = length (fights reportdict) ->
  map progress (report_rows earlier reportdict tbl) = block.
Proof.
  intros Hmap Hprefix Hblock. unfold report_rows.
  rewrite <- firstn_map, <- skipn_map, Hmap, <- Hprefix, <- Hblock.
  rewrite skipn_app, skipn_all, Nat.sub_diag. simpl.
  rewrite firstn_app, firstn_all, Nat.sub_diag. simpl. apply app_nil_r.
Qed.

Lemma Forall2_Forall_r {A B : Type} (R : A -> B -> Prop) (P : B -> Prop)
  (l : list A) (l' : list B) :
  Forall2 R l l' -> (forall x y, In x l -> R x y -> P y) -> Forall P l'.
Proof.
  induction 1 as [| x y l l' Hxy _ IH]; intros HP; constructor.
  - apply (HP x y); [now left | assumption].
  - apply IH. intros x' y' Hin. apply HP. now right.
Qed.

Lemma nth_error_map_progress (tbl : list ProcessedRow) (rows : list ProgressRow)
  (n : nat) (r : ProgressRow) :
  map progress tbl = rows -> nth_error rows n = Some r ->
  exists t, nth_error tbl n = Some t /\ progress t = r.
Proof.
  intros <-. rewrite nth_error_map.
  destruct (nth_error tbl n) as [t |]; simpl; intros H; [| discriminate].
  injection H as <-. eauto.
Qed.

(** The first row of a report: attempt 0 of the report, with a daily sum
    that holds that attempt alone. *)
Lemma first_row_of_report (later earlier : RawDoc) (reportdict : Report)
  (f : Fight) (fs : list Fight) (s : LoopState) :
  final_state (later ++ reportdict :: earlier) = Ok s ->
  fights reportdict = f :: fs ->
  exists r0,
    nth_error (processed_fight_prog_data s) (total_attempts earlier) = Some r0 /\
    records (report_day reportdict) 0 f r0 /\
    Daily_Cumulative_Hours r0 = 0 + pull_duration f / 60 / 60.
Proof.
  intros Hs Hfights.
  destruct (final_state_report_rows _ _ _ Hs)
    as (s0 & block & rest & Hs0 & Hlen0 & Hrows & Hlen & Hrec & Hall).
  destruct (report_loop_daily (report_day reportdict) (fights reportdict) s0)
    as (block' & Hrows' & Hfirst & _).
  rewrite Hrows in Hrows'. apply app_inv_head in Hrows'. subst block'.
  destruct (Hfirst f fs Hfights) as (r0 & others & -> & Hdaily).
  exists r0. split; [| split; [| exact Hdaily]].
  - rewrite Hall, nth_error_app2 by lia. now rewrite Hlen0, Nat.sub_diag.
  - rewrite Hfights in Hrec. inversion Hrec as [| ? ? ? ? Hr0 _]; subst. exact Hr0.
Qed.

(** Within the rows of a report the daily sum does not go down. *)
Lemma report_rows_daily (later earlier : RawDoc) (reportdict : Report)
  (s : LoopState) (tbl : list ProcessedRow) :
  final_state (later ++ reportdict :: earlier) = Ok s ->
  map progress tbl = processed_fight_prog_data s ->
  Forall ends_after_start (fights reportdict) ->
  nondecreasing Qle (column Daily_Cumulative_Hours (report_rows earlier reportdict tbl)).
Proof.
  intros Hs Hmap Hgood.
  destruct (final_state_report_rows _ _ _ Hs)
    as (s0 & block & rest & Hs0 & Hlen0 & Hrows & Hlen & Hrec & Hall).
  destruct (report_loop_daily (report_day reportdict) (fights reportdict) s0)
    as (block' & Hrows' & _ & Hmono).
  rewrite Hrows in Hrows'. apply app_inv_head in Hrows'. subst block'.
  rewrite column_map_progress.
  assert (Hblock : map progress (report_rows earlier reportdict tbl) = block).
  { eapply report_rows_block; [rewrite Hmap; exact Hall | assumption | assumption]. }
  rewrite Hblock. now apply Hmono.
Qed.

(** When no two reports have the same day, a day is a report. *)
Lemma final_state_within_day (raw : RawDoc) (s : LoopState) :
  NoDup (map report_day raw) ->
  (forall reportdict, In reportdict raw -> Forall ends_after_start (fights reportdict)) ->
  final_state raw = Ok s ->
  nondecreasing_within_day (processed_fight_prog_data s) /\
  Forall (fun r => In (Day r) (map report_day raw)) (processed_fight_prog_data s).
Proof.
  revert s. induction raw as [| reportdict raw IH]; intros s Hnd Hgood Hs.
  - rewrite final_state_nil in Hs. injection Hs as <-. simpl. split; [| constructor].
    intros i j ri rj _ Hi. destruct i; discriminate.
  - rewrite final_state_cons in Hs. apply bind_ok in Hs as (s0 & Hs0 & Hbody).
    apply report_body_ok in Hbody as [_ ->].
    inversion Hnd as [| ? ? Hfresh Hnd']; subst.
    destruct (IH s0 Hnd' (fun r Hr => Hgood r (or_intror Hr)) Hs0) as [Hwithin Hdays].
    destruct (report_loop_block (report_day reportdict) (fights reportdict) 0 s0)
      as (block & Hrows & Hrec & _).
    destruct (report_loop_daily (report_day reportdict) (fights reportdict) s0)
      as (block' & Hrows' & _ & Hmono).
    rewrite Hrows in Hrows'. apply app_inv_head in Hrows'. subst block'.
    destruct (Hmono (Hgood reportdict (or_introl eq_refl))) as [Hblock _].
    assert (Hday : Forall (fun r => Day r = report_day reportdict) block).
    { eapply Forall2_Forall_r; [exact Hrec |]. intros item r Hin Hr.
      apply in_map_iff in Hin as (item0 & <- & _). apply Hr. }
    rewrite Hrows. split.
    + intros i j ri rj Hij Hi Hj Hsame.
      set (n := length (processed_fight_prog_data s0)) in *.
      destruct (Nat.lt_ge_cases j n) as [Hjn | Hjn].
      * rewrite nth_error_app1 in Hi, Hj by (fold n; lia). eauto.
      * rewrite nth_error_app2 in Hj by (fold n; lia).
        destruct (Nat.lt_ge_cases i n) as [Hin | Hin].
        -- rewrite nth_error_app1 in Hi by (fold n; lia).
           exfalso. apply Hfresh.
           rewrite Forall_forall in Hdays, Hday.
           rewrite <- (Hday rj (nth_error_In _ _ Hj)), <- Hsame.
           apply Hdays. eapply nth_error_In, Hi.
        -- rewrite nth_error_app2 in Hi by (fold n; lia).
           apply (Hblock (i - n)%nat (j - n)%nat); [lia | |];
             now apply map_nth_error.
    + apply Forall_app. split.
      * eapply Forall_impl; [| exact Hdays]. intros r Hr. now right.
      * eapply Forall_impl; [| exact Hday]. intros r ->. now left.
Qed.

(** ** The claims *)

(** C1. For every valid raw document, [process_data] emits exactly one row
    per attempt: the number of rows of the processed table is the sum, over
    the reports, of the number of fights of the report. *)
Theorem process_data_row_count (raw : RawDoc) :
  well_formed raw = true ->
  exists tbl, process_data raw = Ok tbl /\ length tbl = total_attempts raw.
Proof.
  intros Hwf.
  destruct (process_data_well_formed _ Hwf) as (s & tbl & Hs & Htbl & Hmap & _).
  exists tbl. split; [exact Htbl |].
  rewrite <- (final_state_length _ Hs), <- Hmap. now rewrite length_map.
Qed.

Lemma process_data_row_count_witness :
  well_formed two_day_doc = true /\
  exists tbl, process_data two_day_doc = Ok tbl /\ length tbl = 3%nat.
Proof.
  split; [reflexivity | apply (process_data_row_count two_day_doc); reflexivity].
Defined.

(** C2. For every attempt, the "Pull Fight Completion" value of its row is
    exactly 100 minus the attempt's [fightPercentage]; nothing is clamped, so
    a [fightPercentage] below 0 or above 100 goes through the same formula. *)
Theorem pull_fight_completion_unclamped (raw : RawDoc) :
  well_formed raw = true ->
  exists tbl,
    process_data raw = Ok tbl /\
    column Pull_Fight_Completion tbl =
      map (fun fightdict => 100 - fightPercentage fightdict) (attempts raw).
Proof.
  intros Hwf.
  destruct (process_data_well_formed _ Hwf) as (s & tbl & Hs & Htbl & Hmap & _).
  exists tbl. split; [exact Htbl |].
  rewrite <- map_snd_indexed_attempts, map_map. unfold column.
  apply Forall2_eq_map.
  eapply Forall2_impl; [| exact (table_records _ _ Hs Hmap)].
  intros item t Hrec. apply Hrec.
Qed.

Lemma pull_fight_completion_unclamped_witness :
  well_formed out_of_range_doc = true /\
  exists tbl,
    process_data out_of_range_doc = Ok tbl /\
    column Pull_Fight_Completion tbl = [100 - -20; 100 - 101; 100 - 150].
Proof.
  split; [reflexivity |].
  apply (pull_fight_completion_unclamped out_of_range_doc). reflexivity.
Defined.

(** C3 fails on an attempt of one hour: its "Pull Duration" is 3600, the
    number of seconds, and not 1. *)
Lemma pull_duration_in_hours_counterexample :
  exists tbl,
    process_data one_hour_doc = Ok tbl /\
    column Pull_Duration tbl = [3600000 / 1000] /\
    map duration_hours (attempts one_hour_doc) = [3600000 / 1000 / 60 / 60] /\
    ~ pull_duration_in_hours one_hour_doc tbl.
Proof.
  eexists. split; [reflexivity |]. split; [reflexivity |]. split; [reflexivity |].
  unfold pull_duration_in_hours. intros H. inversion H as [| f t fs ts Hhead _]; subst.
  revert Hhead. simpl. unfold Qeq. simpl. discriminate.
Qed.

(** C3, amended. For every attempt, the "Pull Duration" of its row is the
    duration of the attempt in seconds, the difference of the end and start
    times in milliseconds divided by 1000; it is 3600 times the duration in
    hours. *)
Theorem pull_duration_in_seconds (raw : RawDoc) :
  well_formed raw = true ->
  exists tbl,
    process_data raw = Ok tbl /\
    column Pull_Duration tbl =
      map (fun fightdict => (endTime fightdict - startTime fightdict) / 1000)
          (attempts raw) /\
    Forall2 (fun fightdict t =>
               Pull_Duration (progress t) == 3600 * duration_hours fightdict)
            (attempts raw) tbl.
Proof.
  intros Hwf.
  destruct (process_data_well_formed _ Hwf) as (s & tbl & Hs & Htbl & Hmap & _).
  exists tbl. split; [exact Htbl |].
  pose proof (table_records _ _ Hs Hmap) as Hrec.
  split.
  - rewrite <- map_snd_indexed_attempts, map_map. unfold column.
    apply Forall2_eq_map.
    eapply Forall2_impl; [| exact Hrec].
    intros item t Ht. apply Ht.
  - rewrite <- map_snd_indexed_attempts.
    clear - Hrec. induction Hrec as [| item t items tbl Ht _ IH]; simpl; constructor;
      [| exact IH].
    destruct Ht as (_ & _ & _ & _ & _ & _ & ->).
    unfold duration_hours, pull_duration. field.
Qed.

Lemma pull_duration_in_seconds_witness :
  well_formed one_hour_doc = true /\
  exists tbl,
    process_data one_hour_doc = Ok tbl /\
    column Pull_Duration tbl = [(3600000 - 0) / 1000] /\
    Forall2 (fun fightdict t =>
               Pull_Duration (progress t) == 3600 * duration_hours fightdict)
            (attempts one_hour_doc) tbl.
Proof.
  split; [reflexivity |].
  apply (pull_duration_in_seconds one_hour_doc). reflexivity.
Defined.

(** C4 fails on two reports of the same day: the rows of day 1 have the
    daily sums 2 and then 1. *)
Lemma daily_hours_within_day_counterexample :
  well_formed same_day_doc = true /\
  no_negative_duration same_day_doc = true /\
  exists tbl,
    process_data same_day_doc = Ok tbl /\
    column Day tbl = [1%Z; 1%Z] /\
    ~ nondecreasing_within_day (map progress tbl).
Proof.
  split; [reflexivity |]. split; [reflexivity |].
  eexists. split; [reflexivity |]. split; [reflexivity |].
  intros H.
  specialize (H 0%nat 1%nat _ _ (le_S _ _ (le_n _)) eq_refl eq_refl eq_refl).
  vm_compute in H. apply H. reflexivity.
Qed.

(** C4, amended. For every valid raw document none of whose attempts ends
    before it starts: the "Daily Cumulative Hours" column is non-decreasing
    along the rows of each report and starts afresh at each report, where the
    first row holds the hours of its attempt alone; the "Total Cumulative
    Hours" column is non-decreasing along all the rows; and when no two
    reports have the same day number, the "Daily Cumulative Hours" column is
    non-decreasing along the rows of each day. *)
Theorem cumulative_hours_nondecreasing (raw : RawDoc) :
  well_formed raw = true ->
  no_negative_duration raw = true ->
  exists tbl,
    process_data raw = Ok tbl /\
    (forall later reportdict earlier,
       raw = later ++ reportdict :: earlier ->
       nondecreasing Qle
         (column Daily_Cumulative_Hours (report_rows earlier reportdict tbl)) /\
       (forall f fs, fights reportdict = f :: fs ->
          exists t,
            nth_error tbl (total_attempts earlier) = Some t /\
            Daily_Cumulative_Hours (progress t) == duration_hours f)) /\
    nondecreasing Qle (column Total_Cumulative_Hours tbl) /\
    (NoDup (map report_day raw) -> nondecreasing_within_day (map progress tbl)).
Proof.
  intros Hwf Hdur.
  destruct (process_data_well_formed _ Hwf) as (s & tbl & Hs & Htbl & Hmap & _).
  pose proof (no_negative_duration_spec _ Hdur) as Hgood.
  exists tbl. split; [exact Htbl |]. split; [| split].
  - intros later reportdict earlier ->. split.
    + eapply report_rows_daily; [exact Hs | exact Hmap |].
      apply Hgood. apply in_or_app. right. now left.
    + intros f fs Hfights.
      destruct (first_row_of_report _ _ _ Hs Hfights) as (r0 & Hnth & _ & Hdaily).
      destruct (@nth_error_map_progress _ _ _ _ Hmap Hnth) as (t & Ht & <-).
      exists t. split; [exact Ht |].
      rewrite Hdaily. unfold duration_hours, pull_duration. apply Qplus_0_l.
  - rewrite column_map_progress, Hmap.
    eapply running_total_cumulative_hours; [exact Hdur | exact Hs].
  - intros Hnd. rewrite Hmap.
    eapply final_state_within_day; [exact Hnd | exact Hgood | exact Hs].
Qed.

Lemma cumulative_hours_nondecreasing_witness :
  well_formed two_day_doc = true /\
  no_negative_duration two_day_doc = true /\
  exists tbl,
    process_data two_day_doc = Ok tbl /\
    (forall later reportdict earlier,
       two_day_doc = later ++ reportdict :: earlier ->
       nondecreasing Qle
         (column Daily_Cumulative_Hours (report_rows earlier reportdict tbl)) /\
       (forall f fs, fights reportdict = f :: fs ->
          exists t,
            nth_error tbl (total_attempts earlier) = Some t /\
            Daily_Cumulative_Hours (progress t) == duration_hours f)) /\
    nondecreasing Qle (column Total_Cumulative_Hours tbl) /\
    (NoDup (map report_day two_day_doc) -> nondecreasing_within_day (map progress tbl)).
Proof.
  split; [reflexivity |]. split; [reflexivity |].
  apply (cumulative_hours_nondecreasing two_day_doc); reflexivity.
Defined.

(** C5. For every valid raw document, the "Historical Highest Phase" and the
    "Historical Highest Fight Completion" columns are non-decreasing along
    the rows. *)
Theorem historical_highest_nondecreasing (raw : RawDoc) :
  well_formed raw = true ->
  exists tbl,
    process_data raw = Ok tbl /\
    nondecreasing Z.le (column Historical_Highest_Phase tbl) /\
    nondecreasing Qle (column Historical_Highest_Fight_Completion tbl).
Proof.
  intros Hwf.
  destruct (process_data_well_formed _ Hwf) as (s & tbl & Hs & Htbl & Hmap & _).
  exists tbl. split; [exact Htbl |].
  rewrite !column_map_progress, Hmap. split.
  - apply (running_highest_phase _ Hs).
  - apply (running_highest_fight_completion _ Hs).
Qed.

Lemma historical_highest_nondecreasing_witness :
  well_formed two_day_doc = true /\
  exists tbl,
    process_data two_day_doc = Ok tbl /\
    nondecreasing Z.le (column Historical_Highest_Phase tbl) /\
    nondecreasing Qle (column Historical_Highest_Fight_Completion tbl).
Proof.
  split; [reflexivity |].
  apply (historical_highest_nondecreasing two_day_doc). reflexivity.
Defined.

(** C6. [process_data] goes through the reports in the reverse of their
    order in the raw document and, within each report, through the attempts
    in their stored order: the rows are those of the fights of the last
    report, then of the one before, and so on, each report's fights from the
    first to the last.  Hence, when the attempts taken in that order are in
    the order of time, so are the rows. *)
Theorem rows_follow_reversed_reports (raw : RawDoc) :
  well_formed raw = true ->
  exists tbl,
    process_data raw = Ok tbl /\
    map (fun t => (Day (progress t), Pull (progress t),
                   Pull_Start_Time (progress t), Pull_End_Time (progress t),
                   Pull_Phase (progress t))) tbl =
      flat_map
        (fun reportdict =>
           map (fun item => (report_day reportdict, (Z.of_nat (fst item) + 1)%Z,
                             startTime (snd item), endTime (snd item),
                             lastPhaseAsAbsoluteIndex (snd item)))
               (Py.enumerate (fights reportdict)))
        (rev raw) /\
    (nondecreasing Qle (map startTime (flat_map fights (rev raw))) ->
     nondecreasing Qle (column Pull_Start_Time tbl)).
Proof.
  intros Hwf.
  destruct (process_data_well_formed _ Hwf) as (s & tbl & Hs & Htbl & Hmap & _).
  exists tbl. split; [exact Htbl |].
  pose proof (table_records _ _ Hs Hmap) as Hrec.
  split.
  - transitivity
      (map (fun item : Z * nat * Fight =>
              (fst (fst item), (Z.of_nat (snd (fst item)) + 1)%Z,
               startTime (snd item), endTime (snd item),
               lastPhaseAsAbsoluteIndex (snd item)))
           (indexed_attempts raw)).
    + apply Forall2_eq_map.
      eapply Forall2_impl; [| exact Hrec].
      intros item t (HDay & HPull & HStart & HEnd & HPhase & _).
      now rewrite HDay, HPull, HStart, HEnd, HPhase.
    + unfold indexed_attempts. rewrite map_flat_map.
      apply flat_map_ext. intros reportdict. now rewrite map_map.
  - intros Hchron.
    replace (column Pull_Start_Time tbl) with (map startTime (attempts raw));
      [exact Hchron |].
    rewrite <- map_snd_indexed_attempts, map_map. unfold column.
    symmetry. apply Forall2_eq_map.
    eapply Forall2_impl; [| exact Hrec].
    intros item t Ht. apply Ht.
Qed.

Lemma rows_follow_reversed_reports_witness :
  well_formed two_day_doc = true /\
  exists tbl,
    process_data two_day_doc = Ok tbl /\
    map (fun t => (Day (progress t), Pull (progress t),
                   Pull_Start_Time (progress t), Pull_End_Time (progress t),
                   Pull_Phase (progress t))) tbl =
      [ (1%Z, 1%Z, 0, 600000, 1%Z);
        (1%Z, 2%Z, 1000000, 2200000, 2%Z);
        (2%Z, 1%Z, 90000000, 91800000, 3%Z) ] /\
    (nondecreasing Qle (map startTime (flat_map fights (rev two_day_doc))) ->
     nondecreasing Qle (column Pull_Start_Time tbl)).
Proof.
  split; [reflexivity |].
  apply (rows_follow_reversed_reports two_day_doc). reflexivity.
Defined.

(** C7. In the finished table, the "Highest Daily Cumulative Hours" of every
    row is the maximum of the "Daily Cumulative Hours" of the rows that have
    the same "Day".  The finished table is that of a valid document whose
    day numbers [float64] holds exactly, on which the lookup of lines
    122-125 finds one group for each row; it has the rows of the loop, one
    for each attempt, with one more column. *)
Theorem highest_daily_is_day_maximum (raw : RawDoc) :
  well_formed raw = true ->
  days_exact raw = true ->
  exists tbl,
    process_data raw = Ok tbl /\
    progress_rows raw = Ok (map progress tbl) /\
    length tbl = total_attempts raw /\
    Forall (carries_day_maximum tbl) tbl.
Proof.
  intros Hwf _.
  destruct (process_data_well_formed _ Hwf) as (s & tbl & Hs & Htbl & Hmap & Hmax).
  exists tbl. split; [exact Htbl |].
  split; [rewrite progress_rows_final_state, Hs, Hmap; reflexivity |].
  split; [rewrite <- (final_state_length _ Hs), <- Hmap; now rewrite length_map |].
  rewrite <- Hmap in Hmax.
  eapply Forall_impl; [| exact Hmax].
  intros t (Hub & r & Hr & Hday & Hval). split.
  - intros t' Ht' Hsame. apply Hub; [now apply in_map | exact Hsame].
  - apply in_map_iff in Hr as (t' & <- & Ht'). exists t'. auto.
Qed.

Lemma highest_daily_is_day_maximum_witness :
  well_formed same_day_doc = true /\
  days_exact same_day_doc = true /\
  exists tbl,
    process_data same_day_doc = Ok tbl /\
    progress_rows same_day_doc = Ok (map progress tbl) /\
    length tbl = 2%nat /\
    Forall (carries_day_maximum tbl) tbl.
Proof.
  split; [reflexivity |]. split; [reflexivity |].
  apply (highest_daily_is_day_maximum same_day_doc); reflexivity.
Defined.

(** C8. For every valid raw document, the "Cumulative Pulls" column is the
    sequence 1, 2, 3, ..., one number for each attempt of the document: it
    starts at 1, goes up by 1 at each row and ends at the number of
    attempts. *)
Theorem cumulative_pulls_counts_from_one (raw : RawDoc) :
  well_formed raw = true ->
  exists tbl,
    process_data raw = Ok tbl /\
    column Cumulative_Pulls tbl = map Z.of_nat (seq 1 (total_attempts raw)).
Proof.
  intros Hwf.
  destruct (process_data_well_formed _ Hwf) as (s & tbl & Hs & Htbl & Hmap & _).
  exists tbl. split; [exact Htbl |].
  destruct (final_state_rows _ Hs) as (_ & _ & Hcol).
  rewrite column_map_progress, Hmap, Hcol, (final_state_length _ Hs).
  rewrite <- seq_shift, map_map. apply map_ext. intros i. lia.
Qed.

Lemma cumulative_pulls_counts_from_one_witness :
  well_formed two_day_doc = true /\
  exists tbl,
    process_data two_day_doc = Ok tbl /\
    column Cumulative_Pulls tbl = [1; 2; 3]%Z.
Proof.
  split; [reflexivity |].
  apply (cumulative_pulls_counts_from_one two_day_doc). reflexivity.
Defined.

(** C9. The attempt-within-day index and the daily sum restart at each
    report, not at each new day number: the row of the first attempt of every
    report has "Pull" 1 and a "Daily Cumulative Hours" equal to the duration
    in hours of that attempt alone, whatever the day numbers of the reports
    processed before it. *)
Theorem first_pull_of_report_restarts (later earlier : RawDoc) (reportdict : Report)
  (f : Fight) (fs : list Fight) :
  well_formed (later ++ reportdict :: earlier) = true ->
  fights reportdict = f :: fs ->
  exists tbl t,
    process_data (later ++ reportdict :: earlier) = Ok tbl /\
    nth_error tbl (total_attempts earlier) = Some t /\
    Day (progress t) = report_day reportdict /\
    Pull_Start_Time (progress t) = startTime f /\
    Pull_End_Time (progress t) = endTime f /\
    Pull (progress t) = 1%Z /\
    Daily_Cumulative_Hours (progress t) == duration_hours f.
Proof.
  intros Hwf Hfights.
  destruct (process_data_well_formed _ Hwf) as (s & tbl & Hs & Htbl & Hmap & _).
  destruct (first_row_of_report _ _ _ Hs Hfights) as (r0 & Hnth & Hrec & Hdaily).
  destruct (@nth_error_map_progress _ _ _ _ Hmap Hnth) as (t & Ht & <-).
  exists tbl, t. split; [exact Htbl |]. split; [exact Ht |].
  destruct Hrec as (HDay & HPull & HStart & HEnd & _).
  repeat (split; [assumption |]).
  rewrite Hdaily. unfold duration_hours, pull_duration. apply Qplus_0_l.
Qed.

Lemma first_pull_of_report_restarts_witness :
  well_formed same_day_doc = true /\
  exists tbl t,
    process_data same_day_doc = Ok tbl /\
    nth_error tbl 1 = Some t /\
    Day (progress t) = 1%Z /\
    Pull_Start_Time (progress t) = 7200000 /\
    Pull_End_Time (progress t) = 10800000 /\
    Pull (progress t) = 1%Z /\
    Daily_Cumulative_Hours (progress t) == (10800000 - 7200000) / 1000 / 60 / 60.
Proof.
  split; [reflexivity |].
  apply (@first_pull_of_report_restarts []
           [mkReport "ucob day 1" [mkFight 0 7200000 1 60]]
           (mkReport "ucob day 1" [mkFight 7200000 10800000 1 50])
           (mkFight 7200000 10800000 1 50) []);
    reflexivity.
Defined.

(** C10. The running maxima never go below their initial values: in every
    row of every valid raw document "Historical Highest Phase" is at least 0
    and "Historical Highest Fight Completion" is at least 0.0, whatever the
    signs of the phases and completions of the attempts. *)
Theorem historical_highest_floored_at_zero (raw : RawDoc) :
  well_formed raw = true ->
  exists tbl,
    process_data raw = Ok tbl /\
    Forall (fun t =>
              (0 <= Historical_Highest_Phase (progress t))%Z /\
              0 <= Historical_Highest_Fight_Completion (progress t)) tbl.
Proof.
  intros Hwf.
  destruct (process_data_well_formed _ Hwf) as (s & tbl & Hs & Htbl & Hmap & _).
  exists tbl. split; [exact Htbl |].
  destruct (running_highest_phase _ Hs) as (_ & _ & Hphase).
  destruct (running_highest_fight_completion _ Hs) as (_ & _ & Hcompl).
  rewrite <- Hmap in Hphase, Hcompl. rewrite Forall_map in Hphase, Hcompl.
  rewrite Forall_forall in *. intros t Ht. split.
  - apply (Hphase t Ht).
  - apply (Hcompl t Ht).
Qed.

Lemma historical_highest_floored_at_zero_witness :
  well_formed out_of_range_doc = true /\
  exists tbl,
    process_data out_of_range_doc = Ok tbl /\
    Forall (fun t =>
              (0 <= Historical_Highest_Phase (progress t))%Z /\
              0 <= Historical_Highest_Fight_Completion (progress t)) tbl.
Proof.
  split; [reflexivity |].
  apply (historical_highest_floored_at_zero out_of_range_doc). reflexivity.
Defined.

(** The worked example: three rows; the second has 0.5 daily hours, the
    third 1.0 total hours. *)
Example two_day_doc_rows :
  exists t1 t2 t3,
    process_data two_day_doc = Ok [t1; t2; t3] /\
    Daily_Cumulative_Hours (progress t2) == 1 # 2 /\
    Total_Cumulative_Hours (progress t3) == 1.
Proof.
  do 3 eexists. split; [reflexivity |]. split; reflexivity.
Qed.

(** * Further properties *)

(** ** The title of a report *)

Lemma string_append_nil_r (s : string) : String.append s EmptyString = s.
Proof. induction s as [| c s IH]; simpl; [reflexivity | now rewrite IH]. Qed.

Lemma string_append_assoc (s1 s2 s3 : string) :
  String.append (String.append s1 s2) s3 = String.append s1 (String.append s2 s3).
Proof. induction s1 as [| c s1 IH]; simpl; [reflexivity | now rewrite IH]. Qed.

Lemma split_from_all_space (s : string) (word : option string) :
  all_space s = true ->
  Py.split_from s word = match word with Some w => [w] | None => [] end.
Proof.
  revert word. induction s as [| c s IH]; intros word H; [reflexivity |].
  simpl in H. apply andb_true_iff in H as [Hc Hs]. simpl. rewrite Hc.
  destruct word; now rewrite (IH None Hs).
Qed.

Lemma split_from_pending (s : string) (w : string) : Py.split_from s (Some w) <> [].
Proof.
  revert w. induction s as [| c s IH]; intros w; simpl; [discriminate |].
  destruct (Py.isspace c); [discriminate | apply IH].
Qed.

Lemma split_nil_all_space (s : string) : Py.split s = [] -> all_space s = true.
Proof.
  unfold Py.split. induction s as [| c s IH]; [reflexivity |].
  simpl. unfold all_space. simpl. destruct (Py.isspace c); simpl.
  - exact IH.
  - intros H. now apply split_from_pending in H.
Qed.

Lemma split_from_word (w trail p : string) :
  no_space w = true -> all_space trail = true ->
  Py.split_from (String.append w trail) (Some p) = [String.append p w].
Proof.
  revert p. induction w as [| c w IH]; intros p Hw Htrail.
  - simpl. rewrite split_from_all_space by assumption. now rewrite string_append_nil_r.
  - simpl in Hw. apply andb_true_iff in Hw as [Hc Hw].
    apply negb_true_iff in Hc. simpl. rewrite Hc.
    rewrite IH by assumption. now rewrite string_append_assoc.
Qed.

Lemma split_from_last_word (t : string) (sep : ascii) (c : ascii) (w trail : string)
  (word : option string) :
  Py.isspace sep = true ->
  no_space (String c w) = true -> all_space trail = true ->
  exists words,
    Py.split_from (String.append t (String sep (String.append (String c w) trail))) word =
    words ++ [String c w].
Proof.
  intros Hsep Hw Htrail. revert word.
  assert (Hlast : Py.split_from (String.append (String c w) trail) None = [String c w]).
  { pose proof Hw as Hw'. simpl in Hw'. apply andb_true_iff in Hw' as [Hc Hw'].
    apply negb_true_iff in Hc. simpl. rewrite Hc.
    now rewrite split_from_word by assumption. }
  set (rest := String.append (String c w) trail) in *. clearbody rest.
  induction t as [| a t IH]; intros word.
  - cbn [String.append Py.split_from]. rewrite Hsep, Hlast.
    destruct word as [p |]; [exists [p] | exists []]; reflexivity.
  - cbn [String.append Py.split_from].
    destruct (Py.isspace a).
    + destruct word as [p |].
      * destruct (IH None) as [words Hwords]. exists (p :: words). now rewrite Hwords.
      * apply IH.
    + apply IH.
Qed.

Lemma last_item_snoc {A : Type} (xs : list A) (x : A) : Py.last_item (xs ++ [x]) = Ok x.
Proof. unfold Py.last_item. now rewrite rev_app_distr. Qed.

Lemma digits_raises_ValueError (s : string) (acc : Z) (after_digit : bool) (e : exn) :
  Py.digits s acc after_digit = Raise e -> e = ValueError.
Proof.
  revert acc after_digit. induction s as [| c s IH]; intros acc after_digit; simpl.
  - destruct after_digit; [discriminate | now intros [= <-]].
  - destruct (Py.digit c) as [d |]; [apply IH |].
    destruct (Ascii.eqb c "_" && after_digit); [apply IH | now intros [= <-]].
Qed.

Lemma int_raises_ValueError (s : string) (e : exn) : Py.int s = Raise e -> e = ValueError.
Proof.
  assert (Hneg : forall s', (n <- Py.digits s' 0%Z false ;; Ok (- n)%Z) = Raise e ->
                            e = ValueError).
  { intros s' H. destruct (Py.digits s' 0%Z false) as [n | e'] eqn:Hd; simpl in H;
      [discriminate | injection H as <-]. now apply digits_raises_ValueError in Hd. }
  unfold Py.int.
  destruct (Py.int_max_str_digits <? Py.count_digits s)%Z; [now intros [= <-] |].
  unfold Py.int_literal. destruct s as [| c s]; [apply digits_raises_ValueError |].
  destruct c as [[|] [|] [|] [|] [|] [|] [|] [|]];
    first [apply Hneg | apply digits_raises_ValueError].
Qed.

Lemma all_space_split (s : string) : all_space s = true -> Py.split s = [].
Proof. intros H. unfold Py.split. now rewrite split_from_all_space. Qed.

Lemma day_of_title_IndexError (t : string) :
  day_of_title t = Raise IndexError <-> all_space t = true.
Proof.
  unfold day_of_title, Py.last_item. split.
  - intros H. apply split_nil_all_space.
    destruct (Py.split t) as [| w ws] eqn:Hsplit using rev_ind; [reflexivity |].
    rewrite rev_app_distr in H. simpl in H.
    apply int_raises_ValueError in H. discriminate.
  - intros H. now rewrite (all_space_split _ H).
Qed.

Lemma startswith_app (prefix s : string) : startswith (String.append prefix s) prefix = true.
Proof.
  induction prefix as [| c prefix IH]; simpl; [reflexivity |].
  now rewrite Ascii.eqb_refl, IH.
Qed.

Lemma startswith_inv (s prefix : string) :
  startswith s prefix = true -> exists rest, s = String.append prefix rest.
Proof.
  revert s. induction prefix as [| p prefix IH]; intros s H; simpl in *.
  - now exists s.
  - destruct s as [| c s]; [discriminate |].
    apply andb_true_iff in H as [Hc Hs]. apply Ascii.eqb_eq in Hc. subst p.
    destruct (IH _ Hs) as [rest ->]. now exists rest.
Qed.

(** The errors of the loop are those of the titles. *)
Lemma final_state_raises (raw : RawDoc) (e : exn) :
  final_state raw = Raise e ->
  exists reportdict, In reportdict raw /\ day_of_title (title reportdict) = Raise e.
Proof.
  induction raw as [| reportdict raw IH]; intros H.
  - rewrite final_state_nil in H. discriminate.
  - rewrite final_state_cons in H.
    destruct (final_state raw) as [s0 | e0].
    + simpl in H. unfold report_body in H.
      destruct (day_of_title (title reportdict)) as [day | e1] eqn:Hday;
        simpl in H; [discriminate | injection H as <-].
      exists reportdict. split; [now left | exact Hday].
    + simpl in H. injection H as <-.
      destruct (IH eq_refl) as (r & Hr & Hday). exists r. split; [now right | exact Hday].
Qed.

Lemma process_data_raises (raw : RawDoc) (e : exn) :
  process_data raw = Raise e ->
  e = ValueError \/
  exists reportdict, In reportdict raw /\ day_of_title (title reportdict) = Raise e.
Proof.
  intros H. destruct (final_state raw) as [s | e0] eqn:Hs.
  - left. destruct (processed_fight_prog_data s) as [| r rows] eqn:Hrows.
    + unfold process_data in H. rewrite progress_rows_final_state, Hs in H.
      simpl in H. rewrite Hrows in H. simpl in H. now injection H as <-.
    + destruct (process_data_spec raw (rows := processed_fight_prog_data s))
        as (tbl & Htbl & _).
      * now rewrite progress_rows_final_state, Hs.
      * rewrite Hrows. discriminate.
      * congruence.
  - right. apply final_state_raises.
    unfold process_data in H. rewrite progress_rows_final_state, Hs in H.
    simpl in H. now injection H as <-.
Qed.

(** ** [int] on decimal numerals *)

Lemma digits_of_uint_acc (d : Decimal.uint) (acc : positive) :
  Py.digits (NilEmpty.string_of_uint d) (Z.pos acc) true =
  Ok (Z.pos (Pos.of_uint_acc d acc)).
Proof.
  revert acc.
  induction d as [| d IH | d IH | d IH | d IH | d IH | d IH | d IH | d IH | d IH | d IH];
    intros acc; [reflexivity | ..];
    cbn [NilEmpty.string_of_uint Py.digits Pos.of_uint_acc];
    match goal with
    | |- context [Py.digit ?c] =>
        let v := eval vm_compute in (Py.digit c) in change (Py.digit c) with v
    end;
    cbv iota;
    match goal with
    | |- _ = Ok (Z.pos (Pos.of_uint_acc _ ?y)) => rewrite <- (IH y)
    end;
    f_equal; lia.
Qed.

Lemma digits_of_uint (d : Decimal.uint) :
  Py.digits (NilEmpty.string_of_uint d) 0%Z true = Ok (Z.of_N (Pos.of_uint d)).
Proof.
  induction d as [| d IH | d IH | d IH | d IH | d IH | d IH | d IH | d IH | d IH | d IH];
    [reflexivity | exact IH | ..];
    cbn [NilEmpty.string_of_uint Py.digits Pos.of_uint Z.of_N];
    match goal with
    | |- context [Py.digit ?c] =>
        let v := eval vm_compute in (Py.digit c) in change (Py.digit c) with v
    end;
    cbv iota;
    match goal with
    | |- _ = Ok (Z.pos (Pos.of_uint_acc _ ?y)) => rewrite <- (digits_of_uint_acc d y)
    end;
    reflexivity.
Qed.

Lemma digits_of_uint_first (d : Decimal.uint) :
  d <> Decimal.Nil ->
  Py.digits (NilEmpty.string_of_uint d) 0%Z false = Ok (Z.of_N (Pos.of_uint d)).
Proof.
  intros Hd. rewrite <- digits_of_uint.
  destruct d; [contradiction | reflexivity ..].
Qed.

Lemma int_literal_of_uint (d : Decimal.uint) :
  d <> Decimal.Nil ->
  Py.int_literal (NilEmpty.string_of_uint d) = Ok (Z.of_N (Pos.of_uint d)).
Proof.
  intros Hd. rewrite <- (digits_of_uint_first Hd).
  destruct d; [contradiction | reflexivity ..].
Qed.

Lemma no_space_string_of_uint (d : Decimal.uint) :
  no_space (NilEmpty.string_of_uint d) = true.
Proof. induction d; simpl; [reflexivity | exact IHd ..]. Qed.

Lemma int_literal_decimal (z : Z) : Py.int_literal (decimal z) = Ok z.
Proof.
  destruct z as [| p | p]; [reflexivity | |]; unfold decimal; simpl.
  - pose proof (DecimalPos.Unsigned.to_uint_nonnil p) as Hnil.
    pose proof (DecimalPos.Unsigned.of_to p) as Hof.
    replace (NilZero.string_of_uint (Pos.to_uint p))
      with (NilEmpty.string_of_uint (Pos.to_uint p))
      by (destruct (Pos.to_uint p); [contradiction | reflexivity ..]).
    rewrite (int_literal_of_uint Hnil), Hof. reflexivity.
  - pose proof (DecimalPos.Unsigned.to_uint_nonnil p) as Hnil.
    pose proof (DecimalPos.Unsigned.of_to p) as Hof.
    replace (NilZero.string_of_uint (Pos.to_uint p))
      with (NilEmpty.string_of_uint (Pos.to_uint p))
      by (destruct (Pos.to_uint p); [contradiction | reflexivity ..]).
    rewrite (digits_of_uint_first Hnil), Hof. reflexivity.
Qed.

Lemma int_decimal (z : Z) :
  (Py.count_digits (decimal z) <= Py.int_max_str_digits)%Z ->
  Py.int (decimal z) = Ok z.
Proof.
  intros H. unfold Py.int.
  destruct (Z.ltb_spec Py.int_max_str_digits (Py.count_digits (decimal z))); [lia |].
  apply int_literal_decimal.
Qed.

Lemma decimal_word (z : Z) :
  exists c w, decimal z = String c w /\ no_space (String c w) = true.
Proof.
  assert (Hu : forall d, exists c w,
             NilZero.string_of_uint d = String c w /\ no_space (String c w) = true).
  { intros d. pose proof (no_space_string_of_uint d) as Hd.
    destruct d; simpl; eexists; eexists; (split; [reflexivity | exact Hd]). }
  unfold decimal. destruct (Z.to_int z) as [d | d]; simpl.
  - apply Hu.
  - destruct (Hu d) as (c & w & -> & Hw). eexists; eexists; split; [reflexivity |].
    exact Hw.
Qed.

(** ** Each row from the row before *)

Lemma last_row_snoc {A : Type} (l : list A) (x : A) : last_row (l ++ [x]) = Some x.
Proof. unfold last_row. now rewrite rev_app_distr. Qed.

Lemma last_row_nil_inv {A : Type} (l : list A) : last_row l = None -> l = [].
Proof.
  destruct l as [| x l _] using rev_ind; [reflexivity |].
  rewrite last_row_snoc. discriminate.
Qed.

Lemma last_row_some_inv {A : Type} (l : list A) (x : A) :
  last_row l = Some x -> exists l', l = l' ++ [x].
Proof.
  destruct l as [| y l _] using rev_ind; [discriminate |].
  rewrite last_row_snoc. intros [= ->]. eauto.
Qed.

Lemma linked_snoc {A : Type} (first : A -> Prop) (next : A -> A -> Prop)
  (l : list A) (y : A) :
  linked first next l ->
  match last_row l with
  | None => first y
  | Some x => next x y
  end ->
  linked first next (l ++ [y]).
Proof.
  intros [Hfirst Hnext] Hy.
  destruct (last_row l) as [x |] eqn:Hlast.
  - apply last_row_some_inv in Hlast as [l' ->]. split.
    + intros x0 H0. apply Hfirst.
      rewrite nth_error_app1 in H0; [exact H0 |]. rewrite length_app. simpl. lia.
    + intros j a b Ha Hb.
      assert (Hj : (S j < length ((l' ++ [x]) ++ [y]))%nat)
        by (apply nth_error_Some; congruence).
      rewrite !length_app in Hj. simpl in Hj.
      destruct (Nat.eq_dec (S j) (length l' + 1)) as [E | E].
      * assert (Hjl : j = length l') by lia. subst j.
        replace (S (length l')) with (length (l' ++ [x])) in Hb
          by (rewrite length_app; simpl; lia).
        rewrite nth_error_app2, Nat.sub_diag in Hb by lia. injection Hb as <-.
        rewrite nth_error_app1 in Ha by (rewrite length_app; simpl; lia).
        rewrite nth_error_app2, Nat.sub_diag in Ha by lia.
        injection Ha as <-. exact Hy.
      * rewrite nth_error_app1 in Ha, Hb by (rewrite length_app; simpl; lia). eauto.
  - apply last_row_nil_inv in Hlast. subst l. split.
    + intros x0 [= <-]. exact Hy.
    + intros j a b Ha Hb. destruct j; simpl in Hb; [discriminate | destruct j; discriminate].
Qed.

Lemma linked_impl {A : Type} (first first' : A -> Prop) (next next' : A -> A -> Prop)
  (l : list A) :
  (forall x, first x -> first' x) -> (forall x y, next x y -> next' x y) ->
  linked first next l -> linked first' next' l.
Proof. intros Hf Hn [H1 H2]. split; eauto. Qed.

Lemma loop_invariant_pull_body (i : nat) (day : Z) (d : Q) (s : LoopState) (f : Fight) :
  loop_invariant i day d s ->
  loop_invariant (S i) day (fst (pull_body day (d, s) (i, f)))
                 (snd (pull_body day (d, s) (i, f))).
Proof.
  intros (Hlinked & Hlast & Hdaily). unfold loop_invariant.
  cbn [pull_body fst snd processed_fight_prog_data cumulative_pulls
       total_cumulative_hours highest_phase highest_fight_completion].
  rewrite last_row_snoc. split; [| split].
  - apply linked_snoc; [exact Hlinked |].
    destruct (last_row (processed_fight_prog_data s)) as [r |] eqn:Hr.
    + destruct Hlast as (Hcp & Htot & Hhp & Hhfc). unfold follows.
      cbn [Cumulative_Pulls Day Pull Pull_Phase Historical_Highest_Phase
           Pull_Fight_Completion Historical_Highest_Fight_Completion Pull_Duration
           Daily_Cumulative_Hours Total_Cumulative_Hours].
      rewrite Hcp, Htot, Hhp, Hhfc.
      repeat (split; [reflexivity |]).
      destruct i as [| i].
      * subst d. reflexivity.
      * destruct Hdaily as (r0 & [= <-] & Hpull & Hday & Hd).
        destruct (Z.eqb_spec (Z.of_nat (S i) + 1) 1) as [E | _]; [lia |].
        rewrite Hpull, Hday, Hd. repeat split.
    + destruct Hlast as (Hcp & Htot & Hhp & Hhfc).
      destruct i as [| i]; [| destruct Hdaily as (r0 & Hr0 & _); discriminate].
      subst d. unfold starts.
      cbn [Cumulative_Pulls Day Pull Pull_Phase Historical_Highest_Phase
           Pull_Fight_Completion Historical_Highest_Fight_Completion Pull_Duration
           Daily_Cumulative_Hours Total_Cumulative_Hours].
      rewrite Hcp, Htot, Hhp, Hhfc. repeat split.
  - repeat split.
  - eexists. split; [reflexivity |].
    cbn [Day Pull Daily_Cumulative_Hours]. repeat split. lia.
Qed.

Lemma loop_invariant_report_loop (day : Z) (fs : list Fight) (s : LoopState) :
  loop_invariant 0 day 0 s ->
  loop_invariant (length fs) day (fst (report_loop day fs 0 s))
                 (snd (report_loop day fs 0 s)).
Proof.
  intros H. induction fs as [| f fs IH] using rev_ind; [exact H |].
  rewrite report_loop_snoc, length_app. simpl length. rewrite Nat.add_1_r.
  destruct (report_loop day fs 0 s) as [d1 s1]. now apply loop_invariant_pull_body.
Qed.

(** The rows of the loop are linked. *)
Lemma final_state_linked (raw : RawDoc) (s : LoopState) :
  final_state raw = Ok s -> loop_invariant 0 0 0 s.
Proof.
  revert s. induction raw as [| reportdict raw IH]; intros s Hs.
  - rewrite final_state_nil in Hs. injection Hs as <-.
    split; [| split; [repeat split | reflexivity]].
    split; intros; [discriminate | destruct j; discriminate].
  - rewrite final_state_cons in Hs. apply bind_ok in Hs as (s0 & Hs0 & Hbody).
    apply report_body_ok in Hbody as [_ ->].
    destruct (IH s0 Hs0) as (H1 & H2 & _).
    assert (Hstart : loop_invariant 0 (report_day reportdict) 0 s0)
      by (split; [exact H1 | split; [exact H2 | reflexivity]]).
    destruct (loop_invariant_report_loop (fights reportdict) Hstart) as (H1' & H2' & _).
    split; [exact H1' | split; [exact H2' | reflexivity]].
Qed.

(** What [process_data] returns comes from a state of the loop. *)
Lemma process_data_ok (raw : RawDoc) (tbl : list ProcessedRow) :
  process_data raw = Ok tbl ->
  exists s,
    final_state raw = Ok s /\
    map progress tbl = processed_fight_prog_data s /\
    Forall (fun t => greatest_of_key Day Daily_Cumulative_Hours
                       (processed_fight_prog_data s)
                       (Day (progress t)) (Highest_Daily_Cumulative_Hours t)) tbl.
Proof.
  intros Htbl.
  assert (Hwf : well_formed raw = true)
    by (rewrite <- process_data_returns_iff, Htbl; reflexivity).
  destruct (process_data_well_formed _ Hwf) as (s & tbl0 & Hs & Htbl0 & Hmap & Hmax).
  rewrite Htbl in Htbl0. injection Htbl0 as <-. eauto.
Qed.

(** ** Running maxima *)

Section RunningMaximum.

Variables A B : Type.
Variable le : B -> B -> Prop.
Variable mx : B -> B -> B.
Variable zero : B.
Variables p h : A -> B.
Hypothesis le_trans : forall x y z, le x y -> le y z -> le x z.
Hypothesis mx_l : forall a b, le a (mx a b).
Hypothesis mx_r : forall a b, le b (mx a b).
Hypothesis mx_cases : forall a b, mx a b = a \/ mx a b = b.

Lemma linked_running_maximum (l : list A) :
  linked (fun x => h x = mx zero (p x)) (fun x y => h y = mx (h x) (p y)) l ->
  forall j y, nth_error l j = Some y ->
    (forall i x, (i <= j)%nat -> nth_error l i = Some x -> le (p x) (h y)) /\
    (h y = zero \/
     exists i x, (i <= j)%nat /\ nth_error l i = Some x /\ h y = p x).
Proof.
  intros [Hfirst Hnext] j. induction j as [| j IH]; intros y Hy.
  - pose proof (Hfirst y Hy) as Hh. split.
    + intros i x Hi Hx. assert (i = 0%nat) by lia. subst i.
      rewrite Hy in Hx. injection Hx as <-. rewrite Hh. apply mx_r.
    + destruct (mx_cases zero (p y)) as [E | E]; rewrite E in Hh;
        [now left | right; exists 0%nat, y; auto].
  - destruct (nth_error l j) as [x' |] eqn:Hx'.
    2:{ apply nth_error_None in Hx'.
        assert (S j < length l)%nat by (apply nth_error_Some; congruence). lia. }
    destruct (IH x' eq_refl) as [Hdom Hatt].
    pose proof (Hnext j x' y Hx' Hy) as Hh. split.
    + intros i x Hi Hx. destruct (Nat.eq_dec i (S j)) as [-> | Hne].
      * rewrite Hy in Hx. injection Hx as <-. rewrite Hh. apply mx_r.
      * rewrite Hh. eapply le_trans; [apply (Hdom i x); [lia | exact Hx] | apply mx_l].
    + destruct (mx_cases (h x') (p y)) as [E | E]; rewrite E in Hh.
      * destruct Hatt as [Hz | (i & x & Hi & Hx & Hp)].
        -- left. congruence.
        -- right. exists i, x. repeat split; [lia | exact Hx | congruence].
      * right. exists (S j), y. auto.
Qed.

End RunningMaximum.

(** ** Sums of hours *)

Lemma Forall2_nth_error_r {A B : Type} (R : A -> B -> Prop) (l : list A) (l' : list B)
  (j : nat) (y : B) :
  Forall2 R l l' -> nth_error l' j = Some y ->
  exists x, nth_error l j = Some x /\ R x y.
Proof.
  intros H. revert j. induction H as [| x0 y0 l l' Hxy _ IH]; intros j Hj.
  - destruct j; discriminate.
  - destruct j as [| j]; simpl in *; [injection Hj as <-; eauto | now apply IH].
Qed.

(** Row [j] records attempt [j]. *)
Lemma row_duration (raw : RawDoc) (s : LoopState) (j : nat) (r : ProgressRow) :
  final_state raw = Ok s ->
  nth_error (processed_fight_prog_data s) j = Some r ->
  exists f, nth_error (attempts raw) j = Some f /\ Pull_Duration r = pull_duration f.
Proof.
  intros Hs Hr. destruct (final_state_rows _ Hs) as (Hrec & _).
  destruct (Forall2_nth_error_r j Hrec Hr) as (item & Hitem & Hrecords).
  exists (snd item). split; [| apply Hrecords].
  rewrite <- map_snd_indexed_attempts. now apply map_nth_error.
Qed.

Lemma firstn_snoc {A : Type} (l : list A) (j : nat) (x : A) :
  nth_error l j = Some x -> firstn (S j) l = firstn j l ++ [x].
Proof.
  revert j. induction l as [| a l IH]; intros j Hj; [destruct j; discriminate |].
  destruct j as [| j]; simpl in *; [now injection Hj as <- |].
  f_equal. now apply IH.
Qed.

Lemma Qsum_snoc (l : list Q) (x : Q) : Qsum (l ++ [x]) == Qsum l + x.
Proof.
  induction l as [| a l IH]; simpl; [ring |]. rewrite IH. ring.
Qed.

Lemma final_state_total_hours (raw : RawDoc) (s : LoopState) (j : nat) (r : ProgressRow) :
  final_state raw = Ok s ->
  nth_error (processed_fight_prog_data s) j = Some r ->
  Total_Cumulative_Hours r == Qsum (map duration_hours (firstn (S j) (attempts raw))).
Proof.
  intros Hs. destruct (final_state_linked _ Hs) as ([Hfirst Hnext] & _).
  revert r. induction j as [| j IH]; intros r Hr;
    destruct (row_duration _ _ Hs Hr) as (f & Hf & Hdur);
    rewrite (@firstn_snoc _ _ _ _ Hf), map_app; cbn [map]; rewrite Qsum_snoc.
  - destruct (Hfirst r Hr) as (_ & _ & _ & -> & _). rewrite Hdur. simpl.
    unfold duration_hours, pull_duration. reflexivity.
  - destruct (nth_error (processed_fight_prog_data s) j) as [r0 |] eqn:Hr0.
    2:{ apply nth_error_None in Hr0.
        assert (S j < length (processed_fight_prog_data s))%nat
          by (apply nth_error_Some; congruence). lia. }
    destruct (Hnext j r0 r Hr0 Hr) as (_ & -> & _).
    rewrite (IH r0 eq_refl), Hdur. simpl.
    unfold duration_hours, pull_duration. reflexivity.
Qed.

Lemma final_state_daily_below_total (raw : RawDoc) (s : LoopState) :
  no_negative_duration raw = true ->
  final_state raw = Ok s ->
  Forall (fun r => Daily_Cumulative_Hours r <= Total_Cumulative_Hours r)
         (processed_fight_prog_data s).
Proof.
  intros Hdur Hs.
  destruct (final_state_linked _ Hs) as ([Hfirst Hnext] & _).
  destruct (running_total_cumulative_hours _ Hdur Hs) as (_ & _ & Hpos).
  rewrite Forall_forall in Hpos.
  assert (H : forall j r, nth_error (processed_fight_prog_data s) j = Some r ->
                          Daily_Cumulative_Hours r <= Total_Cumulative_Hours r).
  { induction j as [| j IH]; intros r Hr.
    - destruct (Hfirst r Hr) as (_ & _ & -> & -> & _). apply Qle_refl.
    - destruct (nth_error (processed_fight_prog_data s) j) as [r0 |] eqn:Hr0.
      2:{ apply nth_error_None in Hr0.
          assert (S j < length (processed_fight_prog_data s))%nat
            by (apply nth_error_Some; congruence). lia. }
      destruct (Hnext j r0 r Hr0 Hr) as (_ & -> & _ & _ & Hdaily).
      destruct (Pull r =? 1)%Z.
      + rewrite Hdaily. apply Qplus_le_l.
        apply (Hpos r0). eapply nth_error_In, Hr0.
      + destruct Hdaily as (_ & _ & ->). apply Qplus_le_l. now apply IH. }
  apply Forall_forall. intros r Hin.
  apply In_nth_error in Hin as [j Hj]. eauto.
Qed.

(** ** Further properties of the title and of the errors *)

Lemma day_of_title_last_word (t : string) (sep c : ascii) (w trail : string) :
  Py.isspace sep = true ->
  no_space (String c w) = true -> all_space trail = true ->
  day_of_title (String.append t (String sep (String.append (String c w) trail))) =
  Py.int (String c w).
Proof.
  intros Hsep Hw Htrail. unfold day_of_title, Py.split.
  destruct (@split_from_last_word t sep c w trail None Hsep Hw Htrail) as [words ->].
  now rewrite last_item_snoc.
Qed.

Lemma progress_rows_raises (raw : RawDoc) (e : exn) :
  progress_rows raw = Raise e -> final_state raw = Raise e.
Proof.
  rewrite progress_rows_final_state.
  destruct (final_state raw) as [s | e0]; simpl; [discriminate | now intros [= <-]].
Qed.

(** X1. The day of a report is read in the last word of its title alone:
    when the title ends with a white-space character, a word without white
    space and any run of white space, line 72 gives what [int] makes of that
    word, whatever stands before. *)
Theorem title_day_is_last_word (t : string) (sep c : ascii) (w trail : string) :
  Py.isspace sep = true ->
  no_space (String c w) = true -> all_space trail = true ->
  day_of_title (String.append t (String sep (String.append (String c w) trail))) =
  Py.int (String c w).
Proof. apply day_of_title_last_word. Qed.

Lemma title_day_is_last_word_witness :
  Py.isspace " " = true /\ no_space "12" = true /\ all_space "  " = true /\
  day_of_title "day 3 of ucob, pull 12  " = Ok 12%Z.
Proof.
  split; [reflexivity |]. split; [reflexivity |]. split; [reflexivity |].
  exact (@title_day_is_last_word "day 3 of ucob, pull" " " "1" "2" "  "
           eq_refl eq_refl eq_refl).
Defined.

(** X2. Line 72 raises [IndexError] exactly on a title without a word: the
    empty title and the titles made of white space only. *)
Theorem blank_title_raises_IndexError (t : string) :
  day_of_title t = Raise IndexError <-> all_space t = true.
Proof. apply day_of_title_IndexError. Qed.

(** X4. A report whose title is "ucob day " followed by the decimal
    notation of an integer, of no more digits than [int] converts (4300), is
    kept by the filter of [extract_data], and line 72 of [process_data]
    reads that integer as its day. *)
Theorem numbered_title_kept_and_read (data : RawDoc) (reportdata : Report) (z : Z) :
  title reportdata = String.append "ucob day " (decimal z) ->
  (Py.count_digits (decimal z) <= Py.int_max_str_digits)%Z ->
  In reportdata data ->
  In reportdata (extract_data_filter data) /\ day_of_title (title reportdata) = Ok z.
Proof.
  intros Htitle Hdigits Hin. split.
  - apply filter_In. split; [exact Hin |]. rewrite Htitle. apply startswith_app.
  - rewrite Htitle. destruct (decimal_word z) as (c & w & Hz & Hw).
    rewrite <- (int_decimal z Hdigits), Hz.
    rewrite <- (string_append_nil_r (String c w)) at 1.
    apply (@day_of_title_last_word "ucob day" " " c w ""); [reflexivity | exact Hw | reflexivity].
Qed.

Lemma numbered_title_kept_and_read_witness :
  title (mkReport "ucob day -7" []) = String.append "ucob day " (decimal (-7)) /\
  (Py.count_digits (decimal (-7)) <= Py.int_max_str_digits)%Z /\
  In (mkReport "ucob day -7" []) [mkReport "dsr day 1" []; mkReport "ucob day -7" []] /\
  In (mkReport "ucob day -7" [])
     (extract_data_filter [mkReport "dsr day 1" []; mkReport "ucob day -7" []]) /\
  day_of_title (title (mkReport "ucob day -7" [])) = Ok (-7)%Z.
Proof.
  split; [reflexivity |]. split; [discriminate |]. split; [right; left; reflexivity |].
  apply (@numbered_title_kept_and_read
           [mkReport "dsr day 1" []; mkReport "ucob day -7" []]
           (mkReport "ucob day -7" []) (-7)%Z);
    [reflexivity | discriminate | right; left; reflexivity].
Defined.

(** X5. On the reports that the filter of [extract_data] keeps, the loop of
    [process_data] never raises [IndexError]: a title that starts with
    "ucob day " has a last word, and the only error left is the [ValueError]
    of [int] on a last word that is not an integer numeral. *)
Theorem kept_titles_raise_only_ValueError (data : RawDoc) (e : exn) :
  progress_rows (extract_data_filter data) = Raise e -> e = ValueError.
Proof.
  intros H. apply progress_rows_raises, final_state_raises in H.
  destruct H as (reportdict & Hin & Hday).
  destruct e; [exfalso | reflexivity].
  apply day_of_title_IndexError in Hday.
  apply filter_In in Hin as [_ Hstart].
  apply startswith_inv in Hstart as [rest Hrest].
  rewrite Hrest in Hday. discriminate.
Qed.

Lemma kept_titles_raise_only_ValueError_witness :
  progress_rows
    (extract_data_filter [mkReport "ucob day 2 (reclear)" []; mkReport " " []]) =
    Raise ValueError /\
  ValueError = ValueError.
Proof.
  split; [reflexivity |].
  exact (@kept_titles_raise_only_ValueError
           [mkReport "ucob day 2 (reclear)" []; mkReport " " []] ValueError eq_refl).
Defined.

(** X6. The reports are processed from the last of the document to the
    first, and the first title that line 72 rejects ends the run: when the
    titles of the reports after [reportdict] in the document are all read
    and the title of [reportdict] is rejected with [e], [process_data] raises
    [e], whatever the reports before [reportdict] are and even when
    [reportdict] has no fights. *)
Theorem last_bad_title_raises (later earlier : RawDoc) (reportdict : Report) (e : exn) :
  titles_parse earlier = true ->
  day_of_title (title reportdict) = Raise e ->
  process_data (later ++ reportdict :: earlier) = Raise e.
Proof.
  intros Hearlier Hday.
  destruct (final_state_titles_parse _ Hearlier) as [s0 Hs0].
  unfold process_data. rewrite progress_rows_final_state, final_state_app.
  rewrite final_state_cons, Hs0. simpl.
  unfold report_body. rewrite Hday. reflexivity.
Qed.

Lemma last_bad_title_raises_witness :
  titles_parse [mkReport "ucob day 1" [mkFight 0 600000 1 90]] = true /\
  day_of_title (title (mkReport "ucob day two" [])) = Raise ValueError /\
  process_data ([mkReport "" [mkFight 0 1 1 1]] ++
                mkReport "ucob day two" [] ::
                [mkReport "ucob day 1" [mkFight 0 600000 1 90]]) = Raise ValueError.
Proof.
  split; [reflexivity |]. split; [reflexivity |].
  apply (@last_bad_title_raises [mkReport "" [mkFight 0 1 1 1]]
           [mkReport "ucob day 1" [mkFight 0 600000 1 90]]
           (mkReport "ucob day two" []) ValueError); reflexivity.
Defined.

Lemma Z_max_cases (a b : Z) : Z.max a b = a \/ Z.max a b = b.
Proof. destruct (Z.max_dec a b); auto. Qed.

(** [linked_running_maximum] on the rows of a table. *)
Lemma table_running_maximum {B : Type} (le : B -> B -> Prop) (mx : B -> B -> B)
  (zero : B) (p h : ProgressRow -> B) (tbl : list ProcessedRow) :
  (forall x y z, le x y -> le y z -> le x z) ->
  (forall a b, le a (mx a b)) -> (forall a b, le b (mx a b)) ->
  (forall a b, mx a b = a \/ mx a b = b) ->
  linked (fun r => h r = mx zero (p r)) (fun r r' => h r' = mx (h r) (p r'))
         (map progress tbl) ->
  forall j t, nth_error tbl j = Some t ->
    (forall i t', (i <= j)%nat -> nth_error tbl i = Some t' ->
       le (p (progress t')) (h (progress t))) /\
    (h (progress t) = zero \/
     exists i t', (i <= j)%nat /\ nth_error tbl i = Some t' /\
       h (progress t) = p (progress t')).
Proof.
  intros Htrans Hl Hr Hcases Hlinked j t Ht.
  destruct (@linked_running_maximum _ _ le mx zero p h Htrans Hl Hr Hcases _ Hlinked
              j (progress t) (map_nth_error progress j tbl Ht)) as [Hdom Hatt].
  split.
  - intros i t' Hi Ht'. apply (Hdom i (progress t') Hi). now apply map_nth_error.
  - destruct Hatt as [Hz | (i & r & Hi & Hri & Hp)]; [now left | right].
    rewrite nth_error_map in Hri.
    destruct (nth_error tbl i) as [t' |] eqn:Ht'; [| discriminate].
    injection Hri as <-. exists i, t'. auto.
Qed.

(** ** Further properties of the table *)

(** X7. Every row of the table is computed from the row before it and from
    its own columns "Pull Phase", "Pull Fight Completion" and "Pull
    Duration": the count goes up by one, the total hours by the hours of the
    attempt, the two historical maxima are the greater of the previous one
    and the value of the attempt, and the daily hours go up by the hours of
    the attempt within a report and start again from them on a row with
    "Pull" 1.  The first row is computed in the same way from 1, 0.0, 0 and
    0.0. *)
Theorem table_rows_linked (raw : RawDoc) :
  well_formed raw = true ->
  exists tbl,
    process_data raw = Ok tbl /\ linked starts follows (map progress tbl).
Proof.
  intros Hwf.
  destruct (process_data_well_formed _ Hwf) as (s & tbl & Hs & Htbl & Hmap & _).
  exists tbl. split; [exact Htbl |].
  rewrite Hmap. apply (final_state_linked _ Hs).
Qed.

Lemma table_rows_linked_witness :
  well_formed same_day_doc = true /\
  exists tbl,
    process_data same_day_doc = Ok tbl /\ linked starts follows (map progress tbl).
Proof.
  split; [reflexivity | apply (table_rows_linked same_day_doc); reflexivity].
Defined.

(** X8. "Historical Highest Phase" is the running maximum of "Pull Phase"
    and 0: the value of a row is at least the phase of that row and of every
    row before it, and it is 0 or the phase of one of them. *)
Theorem historical_highest_phase_is_running_maximum (raw : RawDoc) :
  well_formed raw = true ->
  exists tbl,
    process_data raw = Ok tbl /\
    forall j t, nth_error tbl j = Some t ->
      (forall i t', (i <= j)%nat -> nth_error tbl i = Some t' ->
         (Pull_Phase (progress t') <= Historical_Highest_Phase (progress t))%Z) /\
      (Historical_Highest_Phase (progress t) = 0%Z \/
       exists i t', (i <= j)%nat /\ nth_error tbl i = Some t' /\
         Historical_Highest_Phase (progress t) = Pull_Phase (progress t')).
Proof.
  intros Hwf.
  destruct (process_data_well_formed _ Hwf) as (s & tbl & Hs & Htbl & Hmap & _).
  exists tbl. split; [exact Htbl |].
  destruct (final_state_linked _ Hs) as (Hlinked & _). rewrite <- Hmap in Hlinked.
  apply (table_running_maximum Z.le Z.max 0%Z Pull_Phase Historical_Highest_Phase tbl
           Z.le_trans Z.le_max_l Z.le_max_r Z_max_cases).
  eapply linked_impl; [| | exact Hlinked].
  - intros r Hr. apply Hr.
  - intros r r' Hr. apply Hr.
Qed.

Lemma historical_highest_phase_is_running_maximum_witness :
  well_formed out_of_range_doc = true /\
  exists tbl,
    process_data out_of_range_doc = Ok tbl /\
    forall j t, nth_error tbl j = Some t ->
      (forall i t', (i <= j)%nat -> nth_error tbl i = Some t' ->
         (Pull_Phase (progress t') <= Historical_Highest_Phase (progress t))%Z) /\
      (Historical_Highest_Phase (progress t) = 0%Z \/
       exists i t', (i <= j)%nat /\ nth_error tbl i = Some t' /\
         Historical_Highest_Phase (progress t) = Pull_Phase (progress t')).
Proof.
  split; [reflexivity |].
  apply (historical_highest_phase_is_running_maximum out_of_range_doc). reflexivity.
Defined.

(** X9. "Historical Highest Fight Completion" is the running maximum of
    "Pull Fight Completion" and 0.0: the value of a row is at least the
    completion of that row and of every row before it, and it is 0.0 or the
    completion of one of them. *)
Theorem historical_highest_completion_is_running_maximum (raw : RawDoc) :
  well_formed raw = true ->
  exists tbl,
    process_data raw = Ok tbl /\
    forall j t, nth_error tbl j = Some t ->
      (forall i t', (i <= j)%nat -> nth_error tbl i = Some t' ->
         Pull_Fight_Completion (progress t') <=
         Historical_Highest_Fight_Completion (progress t)) /\
      (Historical_Highest_Fight_Completion (progress t) = 0 \/
       exists i t', (i <= j)%nat /\ nth_error tbl i = Some t' /\
         Historical_Highest_Fight_Completion (progress t) =
         Pull_Fight_Completion (progress t')).
Proof.
  intros Hwf.
  destruct (process_data_well_formed _ Hwf) as (s & tbl & Hs & Htbl & Hmap & _).
  exists tbl. split; [exact Htbl |].
  destruct (final_state_linked _ Hs) as (Hlinked & _). rewrite <- Hmap in Hlinked.
  apply (table_running_maximum Qle Py.max 0 Pull_Fight_Completion
           Historical_Highest_Fight_Completion tbl
           Qle_trans py_max_le_l py_max_le_r py_max_cases).
  eapply linked_impl; [| | exact Hlinked].
  - intros r Hr. apply Hr.
  - intros r r' Hr. apply Hr.
Qed.

Lemma historical_highest_completion_is_running_maximum_witness :
  well_formed two_day_doc = true /\
  exists tbl,
    process_data two_day_doc = Ok tbl /\
    forall j t, nth_error tbl j = Some t ->
      (forall i t', (i <= j)%nat -> nth_error tbl i = Some t' ->
         Pull_Fight_Completion (progress t') <=
         Historical_Highest_Fight_Completion (progress t)) /\
      (Historical_Highest_Fight_Completion (progress t) = 0 \/
       exists i t', (i <= j)%nat /\ nth_error tbl i = Some t' /\
         Historical_Highest_Fight_Completion (progress t) =
         Pull_Fight_Completion (progress t')).
Proof.
  split; [reflexivity |].
  apply (historical_highest_completion_is_running_maximum two_day_doc). reflexivity.
Defined.

(** X10. The "Total Cumulative Hours" of a row is the sum of the durations
    in hours of its attempt and of all the attempts processed before it. *)
Theorem total_hours_is_sum_of_durations (raw : RawDoc) :
  well_formed raw = true ->
  exists tbl,
    process_data raw = Ok tbl /\
    forall j t, nth_error tbl j = Some t ->
      Total_Cumulative_Hours (progress t) ==
      Qsum (map duration_hours (firstn (S j) (attempts raw))).
Proof.
  intros Hwf.
  destruct (process_data_well_formed _ Hwf) as (s & tbl & Hs & Htbl & Hmap & _).
  exists tbl. split; [exact Htbl |].
  intros j t Ht. apply (final_state_total_hours raw j Hs).
  rewrite <- Hmap. now apply map_nth_error.
Qed.

Lemma total_hours_is_sum_of_durations_witness :
  well_formed two_day_doc = true /\
  exists tbl,
    process_data two_day_doc = Ok tbl /\
    forall j t, nth_error tbl j = Some t ->
      Total_Cumulative_Hours (progress t) ==
      Qsum (map duration_hours (firstn (S j) (attempts two_day_doc))).
Proof.
  split; [reflexivity |].
  apply (total_hours_is_sum_of_durations two_day_doc). reflexivity.
Defined.

(** X11. When no attempt ends before it starts, the "Daily Cumulative
    Hours" of a row never exceeds its "Total Cumulative Hours". *)
Theorem daily_hours_below_total_hours (raw : RawDoc) :
  well_formed raw = true ->
  no_negative_duration raw = true ->
  exists tbl,
    process_data raw = Ok tbl /\
    Forall (fun t => Daily_Cumulative_Hours (progress t) <=
                     Total_Cumulative_Hours (progress t)) tbl.
Proof.
  intros Hwf Hdur.
  destruct (process_data_well_formed _ Hwf) as (s & tbl & Hs & Htbl & Hmap & _).
  exists tbl. split; [exact Htbl |].
  pose proof (final_state_daily_below_total _ Hdur Hs) as H.
  rewrite <- Hmap in H. now rewrite Forall_map in H.
Qed.

Lemma daily_hours_below_total_hours_witness :
  well_formed two_day_doc = true /\
  no_negative_duration two_day_doc = true /\
  exists tbl,
    process_data two_day_doc = Ok tbl /\
    Forall (fun t => Daily_Cumulative_Hours (progress t) <=
                     Total_Cumulative_Hours (progress t)) tbl.
Proof.
  split; [reflexivity |]. split; [reflexivity |].
  apply (daily_hours_below_total_hours two_day_doc); reflexivity.
Defined.

(** X12. When no two reports have the same day number, the day numbers are
    exact as [float64] and no attempt ends before it starts, the "Highest
    Daily Cumulative Hours" of a row is the "Daily Cumulative Hours" of the
    last row of its day: the hours of the whole day.  The table has one row
    for each attempt. *)
Theorem highest_daily_is_last_of_day (raw : RawDoc) :
  well_formed raw = true ->
  days_exact raw = true ->
  no_negative_duration raw = true ->
  NoDup (map report_day raw) ->
  exists tbl,
    process_data raw = Ok tbl /\
    length tbl = total_attempts raw /\
    forall t j tj,
      In t tbl -> nth_error tbl j = Some tj ->
      Day (progress tj) = Day (progress t) ->
      (forall k tk, (j < k)%nat -> nth_error tbl k = Some tk ->
         Day (progress tk) <> Day (progress t)) ->
      Highest_Daily_Cumulative_Hours t == Daily_Cumulative_Hours (progress tj).
Proof.
  intros Hwf _ Hdur Hnd.
  destruct (process_data_well_formed _ Hwf) as (s & tbl & Hs & Htbl & Hmap & Hmax).
  exists tbl. split; [exact Htbl |].
  split; [rewrite <- (final_state_length _ Hs), <- Hmap; now rewrite length_map |].
  destruct (@final_state_within_day raw s Hnd (no_negative_duration_spec _ Hdur) Hs)
    as [Hwithin _].
  intros t j tj Ht Htj Hsame Hlast.
  rewrite Forall_forall in Hmax.
  destruct (Hmax t Ht) as (Hub & r & Hr & Hday & Hval).
  apply Qle_antisym.
  - apply In_nth_error in Hr as [i Hi].
    destruct (@nth_error_map_progress _ _ _ _ Hmap Hi) as (ti & Hti & Hprog).
    destruct (Nat.le_gt_cases i j) as [Hij | Hij].
    + rewrite <- Hval. apply (Hwithin i j r (progress tj) Hij Hi).
      * rewrite <- Hmap. now apply map_nth_error.
      * congruence.
    + exfalso. apply (Hlast i ti Hij Hti). congruence.
  - apply Hub; [| exact Hsame].
    rewrite <- Hmap. now apply in_map, (nth_error_In _ j).
Qed.

Lemma highest_daily_is_last_of_day_witness :
  well_formed two_day_doc = true /\
  days_exact two_day_doc = true /\
  no_negative_duration two_day_doc = true /\
  NoDup (map report_day two_day_doc) /\
  exists tbl,
    process_data two_day_doc = Ok tbl /\
    length tbl = 3%nat /\
    forall t j tj,
      In t tbl -> nth_error tbl j = Some tj ->
      Day (progress tj) = Day (progress t) ->
      (forall k tk, (j < k)%nat -> nth_error tbl k = Some tk ->
         Day (progress tk) <> Day (progress t)) ->
      Highest_Daily_Cumulative_Hours t == Daily_Cumulative_Hours (progress tj).
Proof.
  assert (Hnd : NoDup (map report_day two_day_doc)).
  { repeat constructor; simpl; intuition discriminate. }
  split; [reflexivity |]. split; [reflexivity |]. split; [reflexivity |].
  split; [exact Hnd |].
  apply (highest_daily_is_last_of_day two_day_doc);
    [reflexivity | reflexivity | reflexivity | exact Hnd].
Defined.

(** X13. Reports added at the front of the document leave the rows of the
    reports that were there as they are, in the twelve columns of the loop:
    the table of the longer document starts with those rows.  (The last
    column may change, when an added report has the day of an old one.) *)
Theorem older_rows_unchanged_by_newer_reports (later earlier : RawDoc) :
  well_formed earlier = true ->
  well_formed (later ++ earlier) = true ->
  exists tbl tbl',
    process_data earlier = Ok tbl /\
    process_data (later ++ earlier) = Ok tbl' /\
    map progress (firstn (length tbl) tbl') = map progress tbl.
Proof.
  intros Hwf Hwf'.
  destruct (process_data_well_formed _ Hwf) as (s & tbl & Hs & Htbl & Hmap & _).
  destruct (process_data_well_formed _ Hwf') as (s' & tbl' & Hs' & Htbl' & Hmap' & _).
  exists tbl, tbl'. split; [exact Htbl |]. split; [exact Htbl' |].
  rewrite final_state_app, Hs in Hs'. simpl in Hs'.
  destruct (for_each_report_body_extends _ _ Hs') as (rest & Hrest).
  rewrite <- firstn_map, Hmap', Hrest, <- Hmap.
  rewrite <- (length_map progress tbl), firstn_app, firstn_all, Nat.sub_diag.
  simpl. apply app_nil_r.
Qed.

Lemma older_rows_unchanged_by_newer_reports_witness :
  well_formed [mkReport "ucob day 1" [mkFight 0 7200000 1 60]] = true /\
  well_formed ([mkReport "ucob day 1" [mkFight 7200000 10800000 1 50]] ++
               [mkReport "ucob day 1" [mkFight 0 7200000 1 60]]) = true /\
  exists tbl tbl',
    process_data [mkReport "ucob day 1" [mkFight 0 7200000 1 60]] = Ok tbl /\
    process_data ([mkReport "ucob day 1" [mkFight 7200000 10800000 1 50]] ++
                  [mkReport "ucob day 1" [mkFight 0 7200000 1 60]]) = Ok tbl' /\
    map progress (firstn (length tbl) tbl') = map progress tbl.
Proof.
  split; [reflexivity |]. split; [reflexivity |].
  apply (@older_rows_unchanged_by_newer_reports
           [mkReport "ucob day 1" [mkFight 7200000 10800000 1 50]]
           [mkReport "ucob day 1" [mkFight 0 7200000 1 60]]); reflexivity.
Defined.

(** ** Sorting *)

Section SortedBy.

Variable A : Type.
Variable leb : A -> A -> bool.

Lemma insert_sorted_perm (x : A) (l : list A) :
  Permutation (insert_sorted leb x l) (x :: l).
Proof.
  induction l as [| y l IH]; simpl; [reflexivity |].
  destruct (leb x y); [reflexivity |].
  rewrite IH. apply perm_swap.
Qed.

Lemma sorted_by_perm (l : list A) : Permutation (sorted_by leb l) l.
Proof.
  induction l as [| x l IH]; [constructor |].
  unfold sorted_by in *. simpl. rewrite insert_sorted_perm. now constructor.
Qed.

Hypothesis leb_total : forall a b, leb a b = true \/ leb b a = true.
Hypothesis leb_trans : forall a b c, leb a b = true -> leb b c = true -> leb a c = true.

Lemma insert_sorted_sorted (x : A) (l : list A) :
  StronglySorted (fun a b => leb a b = true) l ->
  StronglySorted (fun a b => leb a b = true) (insert_sorted leb x l).
Proof.
  induction l as [| y l IH]; simpl; intros H.
  - constructor; constructor.
  - inversion H as [| ? ? Hl Hy]; subst. destruct (leb x y) eqn:E.
    + constructor; [exact H |]. constructor; [exact E |].
      eapply Forall_impl; [| exact Hy]. intros z Hz. eapply leb_trans; eassumption.
    + constructor; [now apply IH |].
      apply Forall_forall. intros z Hz.
      apply (Permutation_in _ (insert_sorted_perm x l)) in Hz. destruct Hz as [<- | Hz].
      * destruct (leb_total x y) as [H1 | H1]; [congruence | exact H1].
      * rewrite Forall_forall in Hy. now apply Hy.
Qed.

Lemma sorted_by_sorted (l : list A) :
  StronglySorted (fun a b => leb a b = true) (sorted_by leb l).
Proof.
  induction l as [| x l IH]; [constructor |].
  unfold sorted_by in *. simpl. now apply insert_sorted_sorted.
Qed.

End SortedBy.

Lemma strongly_sorted_split {A : Type} (R : A -> A -> Prop) (l1 : list A) (x : A)
  (l2 : list A) :
  StronglySorted R (l1 ++ x :: l2) ->
  Forall (fun v => R v x) l1 /\ Forall (R x) l2.
Proof.
  induction l1 as [| a l1 IH]; simpl; intros H; inversion H as [| ? ? Hs Ha]; subst.
  - split; [constructor | assumption].
  - destruct (IH Hs) as [H1 H2]. split; [| assumption].
    constructor; [| assumption].
    apply Forall_app in Ha as [_ Ha]. now inversion Ha.
Qed.

Lemma sorted_keys_strict {B : Type} (l : list (Z * B)) :
  StronglySorted (fun a b => (fst a <=? fst b)%Z = true) l ->
  NoDup (map fst l) ->
  StronglySorted Z.lt (map fst l).
Proof.
  induction 1 as [| a l Hs IH Ha]; simpl; intros Hnd; [constructor |].
  inversion Hnd as [| ? ? Hnotin Hnd']; subst.
  constructor; [now apply IH |].
  apply Forall_map. rewrite Forall_forall in *. intros b Hb.
  specialize (Ha b Hb). apply Z.leb_le in Ha.
  assert (fst a <> fst b) by (intros E; apply Hnotin; rewrite E; now apply in_map).
  lia.
Qed.

(** ** The groups of the daily table *)

Lemma group_add_keys (k : Z) (v : Q) (groups : list (Z * list Q)) (k' : Z) :
  In k' (map fst (Groupby.group_add k v groups)) <->
  k' = k \/ In k' (map fst groups).
Proof.
  induction groups as [| [k0 vs0] groups IH]; simpl.
  - intuition.
  - destruct (Z.eqb_spec k k0) as [-> | Hne]; simpl; [intuition |].
    rewrite IH. intuition.
Qed.

Lemma group_add_NoDup (k : Z) (v : Q) (groups : list (Z * list Q)) :
  NoDup (map fst groups) -> NoDup (map fst (Groupby.group_add k v groups)).
Proof.
  induction groups as [| [k0 vs0] groups IH]; simpl; intros Hnd.
  - constructor; [intros [] | constructor].
  - inversion Hnd as [| ? ? Hnotin Hnd']; subst.
    destruct (Z.eqb_spec k k0) as [-> | Hne]; simpl.
    + now constructor.
    + constructor; [| now apply IH].
      rewrite group_add_keys. intros [-> | Hin]; [now apply Hne | now apply Hnotin].
Qed.

Lemma group_add_In (k : Z) (v : Q) (groups : list (Z * list Q)) (k' : Z) (vs' : list Q) :
  NoDup (map fst groups) ->
  In (k', vs') (Groupby.group_add k v groups) ->
  (k' <> k /\ In (k', vs') groups) \/
  (k' = k /\ exists vs, In (k, vs) groups /\ vs' = vs ++ [v]) \/
  (k' = k /\ ~ In k (map fst groups) /\ vs' = [v]).
Proof.
  induction groups as [| [k0 vs0] groups IH]; simpl; intros Hnd.
  - intros [H | []]. injection H as <- <-. right. right. intuition.
  - inversion Hnd as [| ? ? Hnotin Hnd']; subst.
    destruct (Z.eqb_spec k k0) as [-> | Hne]; simpl.
    + intros [H | H].
      * injection H as <- <-. right. left. split; [reflexivity |].
        exists vs0. split; [now left | reflexivity].
      * left. split; [| now right].
        intros ->. apply Hnotin. now apply (in_map fst) in H.
    + intros [H | H].
      * injection H as <- <-. left. split; [congruence | now left].
      * destruct (IH Hnd' H) as [[Hk Hin] | [[Hk (vs & Hin & Hvs)] | (Hk & Hnin & Hvs)]].
        -- left. split; [assumption | now right].
        -- right. left. split; [assumption |]. exists vs. split; [now right | assumption].
        -- right. right. split; [assumption |]. split; [| assumption].
           intros [Heq | Hin]; [now apply Hne | now apply Hnin].
Qed.

Lemma filter_none {A : Type} (p : A -> bool) (l : list A) :
  (forall x, In x l -> p x = false) -> filter p l = [].
Proof.
  induction l as [| x l IH]; intros H; simpl; [reflexivity |].
  rewrite (H x) by now left. apply IH. intros y Hy. apply H. now right.
Qed.

Lemma filter_map_comm {A B : Type} (f : A -> B) (p : B -> bool) (l : list A) :
  filter p (map f l) = map f (filter (fun x => p (f x)) l).
Proof.
  induction l as [| x l IH]; simpl; [reflexivity |].
  destruct (p (f x)); simpl; now rewrite IH.
Qed.

Lemma combine_map_same {A B C : Type} (f : A -> B) (g : A -> C) (l : list A) :
  combine (map f l) (map g l) = map (fun x => (f x, g x)) l.
Proof. induction l as [| x l IH]; simpl; [reflexivity | now rewrite IH]. Qed.

Section GroupByValues.

Variable R : Type.
Variable key : R -> Z.
Variable val : R -> Q.

Lemma values_of_snoc (df : list R) (r : R) :
  values_of key val (df ++ [r]) =
  Groupby.group_add (key r) (val r) (values_of key val df).
Proof. unfold values_of. now rewrite fold_left_app. Qed.

Lemma values_of_spec (df : list R) :
  NoDup (map fst (values_of key val df)) /\
  (forall k, In k (map fst (values_of key val df)) <-> In k (map key df)) /\
  (forall k vs, In (k, vs) (values_of key val df) ->
     vs = map val (filter (fun r => (key r =? k)%Z) df) /\ vs <> []).
Proof.
  induction df as [| r df IH] using rev_ind.
  - split; [constructor | split]; [intros k; reflexivity | intros k vs []].
  - destruct IH as (Hnd & Hkeys & Hvals). rewrite values_of_snoc.
    split; [now apply group_add_NoDup | split].
    + intros k. rewrite group_add_keys, map_app, in_app_iff, Hkeys. simpl.
      intuition congruence.
    + intros k vs Hin. rewrite filter_app, map_app. simpl.
      apply (group_add_In _ _ _ _ _ Hnd) in Hin
        as [[Hk Hin] | [[Hk (vs0 & Hin & Hvs)] | (Hk & Hnin & Hvs)]].
      * destruct (Hvals _ _ Hin) as [-> Hne].
        destruct (Z.eqb_spec (key r) k) as [E | _]; [congruence |].
        simpl. rewrite app_nil_r. auto.
      * subst k vs. destruct (Hvals _ _ Hin) as [-> _].
        rewrite Z.eqb_refl. simpl. split; [reflexivity |].
        intros E. apply app_eq_nil in E as [_ E]. discriminate.
      * subst k vs. rewrite Z.eqb_refl. simpl.
        rewrite filter_none; [split; [reflexivity | discriminate] |].
        intros r' Hr'. apply Z.eqb_neq. intros E. apply Hnin, Hkeys.
        rewrite <- E. now apply in_map.
Qed.

Lemma groups_spec (df : list R) :
  StronglySorted Z.lt (map fst (Groupby.groups key val df)) /\
  (forall k, In k (map fst (Groupby.groups key val df)) <-> In k (map key df)) /\
  (forall k vs, In (k, vs) (Groupby.groups key val df) ->
     vs = map val (filter (fun r => (key r =? k)%Z) df) /\ vs <> []).
Proof.
  destruct (values_of_spec df) as (Hnd & Hkeys & Hvals).
  pose proof (sorted_by_perm (fun a b : Z * list Q => (fst a <=? fst b)%Z)
                (values_of key val df)) as Hperm.
  pose proof (@sorted_by_sorted _ (fun a b : Z * list Q => (fst a <=? fst b)%Z)) as Hsorted.
  change (sorted_by _ (values_of key val df)) with (Groupby.groups key val df) in Hperm.
  split; [| split].
  - apply sorted_keys_strict.
    + apply Hsorted.
      * intros a b. destruct (Z.leb_spec (fst a) (fst b)); [now left | right].
        apply Z.leb_le. lia.
      * intros a b c Hab Hbc. apply Z.leb_le in Hab, Hbc. apply Z.leb_le. lia.
    + eapply Permutation_NoDup; [apply Permutation_map, Permutation_sym, Hperm | exact Hnd].
  - intros k. rewrite <- Hkeys. split; intros Hin.
    + eapply Permutation_in; [apply Permutation_map, Hperm | exact Hin].
    + eapply Permutation_in; [apply Permutation_map, Permutation_sym, Hperm | exact Hin].
  - intros k vs Hin. apply Hvals.
    eapply Permutation_in; [exact Hperm | exact Hin].
Qed.

End GroupByValues.

(** ** Means and medians *)

Lemma Qsum_bounds (lo hi : Q) (vs : list Q) :
  Forall (fun v => lo <= v /\ v <= hi) vs ->
  inject_Z (Z.of_nat (length vs)) * lo <= Qsum vs /\
  Qsum vs <= inject_Z (Z.of_nat (length vs)) * hi.
Proof.
  induction 1 as [| v vs [Hlo Hhi] _ [IHlo IHhi]].
  - change (inject_Z (Z.of_nat (length (@nil Q)))) with 0. rewrite !Qmult_0_l.
    split; apply Qle_refl.
  - cbn [length Qsum fold_right]. fold (Qsum vs).
    rewrite Nat2Z.inj_succ, <- Z.add_1_r, inject_Z_plus.
    change (inject_Z 1) with 1.
    set (c := inject_Z (Z.of_nat (length vs))) in *. clearbody c. split; lra.
Qed.

Lemma length_pos_Q {A : Type} (l : list A) : l <> [] -> 0 < inject_Z (Z.of_nat (length l)).
Proof.
  intros H. destruct l as [| x l]; [contradiction |].
  rewrite <- (Zlt_Qlt 0). simpl length. lia.
Qed.

Lemma mean_bounds (lo hi : Q) (vs : list Q) :
  vs <> [] -> Forall (fun v => lo <= v /\ v <= hi) vs ->
  lo <= Groupby.mean vs /\ Groupby.mean vs <= hi.
Proof.
  intros Hne Hall. destruct (Qsum_bounds Hall) as [Hlo Hhi].
  pose proof (length_pos_Q Hne) as Hpos. unfold Groupby.mean. split.
  - apply Qle_shift_div_l; [exact Hpos |]. now rewrite Qmult_comm.
  - apply Qle_shift_div_r; [exact Hpos |]. now rewrite Qmult_comm.
Qed.

Lemma median_spec (vs : list Q) : vs <> [] -> is_median (Groupby.median vs) vs.
Proof.
  intros Hne. unfold Groupby.median.
  pose proof (sorted_by_perm Qle_bool vs) as Hperm.
  assert (Hsorted : StronglySorted (fun a b => Qle_bool a b = true) (sorted_by Qle_bool vs)).
  { apply sorted_by_sorted.
    - intros a b. destruct (Qlt_le_dec a b) as [H | H].
      + left. apply Qle_bool_iff. now apply Qlt_le_weak.
      + right. now apply Qle_bool_iff.
    - intros a b c Hab Hbc. apply Qle_bool_iff in Hab, Hbc. apply Qle_bool_iff.
      eapply Qle_trans; eassumption. }
  pose proof (Permutation_length Hperm) as Hlen.
  assert (Hn : (0 < length vs)%nat) by (destruct vs; [contradiction | simpl; lia]).
  set (s := sorted_by Qle_bool vs) in *. clearbody s.
  set (n := length vs) in *.
  destruct (Nat.even n) eqn:Heven.
  - right. apply Nat.even_spec in Heven as [m Hm].
    assert (Hdiv : (n / 2 = m)%nat)
      by (symmetry; apply (Nat.div_unique n 2 m 0); lia).
    rewrite Hdiv.
    destruct (@nth_split _ (m - 1) s 0) as (l1 & l2' & Hs & Hl1); [lia |].
    assert (Hl2' : length l2' = m).
    { apply (f_equal (@length _)) in Hs. rewrite length_app in Hs. simpl in Hs. lia. }
    destruct l2' as [| b l2]; [simpl in Hl2'; lia |].
    assert (Hb : nth m s 0 = b).
    { rewrite Hs at 1. rewrite app_nth2 by lia.
      replace (m - length l1)%nat with 1%nat by lia. reflexivity. }
    rewrite Hb. set (a := nth (m - 1) s 0) in *. clearbody a.
    exists l1, a, b, l2.
    rewrite Hs in Hsorted.
    destruct (strongly_sorted_split _ _ _ Hsorted) as [Hlo Hab].
    replace (l1 ++ a :: b :: l2) with ((l1 ++ [a]) ++ b :: l2) in Hsorted
      by (now rewrite <- app_assoc).
    destruct (strongly_sorted_split _ _ _ Hsorted) as [_ Hhi].
    split; [now rewrite <- Hs; apply Permutation_sym |].
    split; [simpl in Hl2'; lia |].
    split; [eapply Forall_impl; [| exact Hlo]; intros v Hv; now apply Qle_bool_iff |].
    split; [inversion Hab; now apply Qle_bool_iff |].
    split; [eapply Forall_impl; [| exact Hhi]; intros v Hv; now apply Qle_bool_iff |].
    reflexivity.
  - left. assert (Hodd : Nat.odd n = true) by (rewrite <- Nat.negb_even, Heven; reflexivity).
    apply Nat.odd_spec in Hodd as [m Hm].
    assert (Hdiv : (n / 2 = m)%nat)
      by (symmetry; apply (Nat.div_unique n 2 m 1); lia).
    rewrite Hdiv.
    destruct (@nth_split _ m s 0) as (l1 & l2 & Hs & Hl1); [lia |].
    set (x := nth m s 0) in *. clearbody x.
    exists l1, l2. rewrite Hs in Hsorted.
    destruct (strongly_sorted_split _ _ _ Hsorted) as [Hlo Hhi].
    split; [now rewrite <- Hs; apply Permutation_sym |].
    split.
    { apply (f_equal (@length _)) in Hs. rewrite length_app in Hs. simpl in Hs. lia. }
    split; eapply Forall_impl; try eassumption; intros v Hv; now apply Qle_bool_iff.
Qed.

Lemma median_bounds (lo hi m : Q) (vs : list Q) :
  Forall (fun v => lo <= v /\ v <= hi) vs -> is_median m vs ->
  lo <= m /\ m <= hi.
Proof.
  intros Hall [(l1 & l2 & Hperm & _) | (l1 & a & b & l2 & Hperm & _ & _ & _ & _ & ->)];
    rewrite Forall_forall in Hall.
  - apply Hall. eapply Permutation_in; [apply Permutation_sym, Hperm |].
    apply in_elt.
  - assert (Ha : In a vs)
      by (eapply Permutation_in; [apply Permutation_sym, Hperm | apply in_elt]).
    assert (Hb : In b vs).
    { eapply Permutation_in; [apply Permutation_sym, Hperm |].
      apply in_or_app. right. right. now left. }
    destruct (Hall a Ha), (Hall b Hb). split.
    + apply Qle_shift_div_l; lra.
    + apply Qle_shift_div_r; lra.
Qed.

(** The daily table, row by row. *)
Lemma daily_fight_prog_spec (tbl : list ProcessedRow) :
  StronglySorted Z.lt (map Summary_Day (daily_fight_prog (map progress tbl))) /\
  (forall d, In d (map Summary_Day (daily_fight_prog (map progress tbl))) <->
             In d (column Day tbl)) /\
  Forall (fun row =>
            day_completions (Summary_Day row) tbl <> [] /\
            Mean_Daily_Fight_Completion row =
              Groupby.mean (day_completions (Summary_Day row) tbl) /\
            Median_Daily_Fight_Completion row =
              Groupby.median (day_completions (Summary_Day row) tbl))
         (daily_fight_prog (map progress tbl)).
Proof.
  destruct (groups_spec Day Pull_Fight_Completion (map progress tbl))
    as (Hsorted & Hkeys & Hvals).
  unfold daily_fight_prog. rewrite combine_map_same, !map_map. cbn [fst snd].
  set (gs := Groupby.groups Day Pull_Fight_Completion (map progress tbl)) in *.
  split; [exact Hsorted | split].
  - intros d. rewrite Hkeys, column_map_progress. reflexivity.
  - apply Forall_map. apply Forall_forall. intros [k vs] Hin. cbn [Summary_Day
      Mean_Daily_Fight_Completion Median_Daily_Fight_Completion fst snd].
    destruct (Hvals k vs Hin) as [Hvs Hne].
    assert (E : day_completions k tbl = vs).
    { unfold day_completions. rewrite Hvs, filter_map_comm, map_map. reflexivity. }
    rewrite E. auto.
Qed.

Lemma percentages_in_range_spec (raw : RawDoc) (f : Fight) :
  percentages_in_range raw = true -> In f (attempts raw) ->
  0 <= fightPercentage f /\ fightPercentage f <= 100.
Proof.
  unfold percentages_in_range, attempts. rewrite forallb_forall. intros H Hf.
  apply in_flat_map in Hf as (reportdict & Hin & Hf). apply in_rev in Hin.
  specialize (H reportdict Hin). rewrite forallb_forall in H.
  specialize (H f Hf). apply andb_true_iff in H as [Hlo Hhi].
  split; now apply Qle_bool_iff.
Qed.

Lemma table_completions_in_range (raw : RawDoc) (s : LoopState) (tbl : list ProcessedRow) :
  percentages_in_range raw = true ->
  final_state raw = Ok s ->
  map progress tbl = processed_fight_prog_data s ->
  Forall (fun t => 0 <= Pull_Fight_Completion (progress t) /\
                   Pull_Fight_Completion (progress t) <= 100) tbl.
Proof.
  intros Hrange Hs Hmap.
  eapply Forall2_Forall_r; [exact (table_records _ _ Hs Hmap) |].
  intros item t Hin (_ & _ & _ & _ & _ & -> & _).
  assert (Hf : In (snd item) (attempts raw))
    by (rewrite <- map_snd_indexed_attempts; now apply in_map).
  destruct (percentages_in_range_spec _ _ Hrange Hf). split; lra.
Qed.

Lemma process_data_daily_ok (raw : RawDoc) (tbl : list ProcessedRow) :
  process_data raw = Ok tbl ->
  process_data_daily raw = Ok (daily_fight_prog (map progress tbl)).
Proof. intros H. unfold process_data_daily. now rewrite H. Qed.

(** ** The daily table *)

(** X14. The daily table has one row for each day number of the first
    table, in ascending order of the day numbers, whatever the order of the
    reports and however many reports have the same day number. *)
Theorem daily_table_days (raw : RawDoc) :
  well_formed raw = true ->
  exists tbl daily,
    process_data raw = Ok tbl /\
    process_data_daily raw = Ok daily /\
    StronglySorted Z.lt (map Summary_Day daily) /\
    forall d, In d (map Summary_Day daily) <-> In d (column Day tbl).
Proof.
  intros Hwf.
  destruct (process_data_well_formed _ Hwf) as (s & tbl & _ & Htbl & _).
  exists tbl, (daily_fight_prog (map progress tbl)).
  split; [exact Htbl |]. split; [now apply process_data_daily_ok |].
  destruct (daily_fight_prog_spec tbl) as (Hsorted & Hdays & _). auto.
Qed.

Lemma daily_table_days_witness :
  well_formed two_day_doc = true /\
  exists tbl daily,
    process_data two_day_doc = Ok tbl /\
    process_data_daily two_day_doc = Ok daily /\
    StronglySorted Z.lt (map Summary_Day daily) /\
    forall d, In d (map Summary_Day daily) <-> In d (column Day tbl).
Proof.
  split; [reflexivity | apply (daily_table_days two_day_doc); reflexivity].
Defined.

(** X15. The "Mean Daily Fight Completion" of a day is the sum of the "Pull
    Fight Completion" of all the rows of the first table with that day
    number, of whichever report, over the number of those rows, and there is
    at least one such row. *)
Theorem daily_mean_is_mean_of_day (raw : RawDoc) :
  well_formed raw = true ->
  exists tbl daily,
    process_data raw = Ok tbl /\
    process_data_daily raw = Ok daily /\
    Forall (fun row =>
              day_completions (Summary_Day row) tbl <> [] /\
              Mean_Daily_Fight_Completion row ==
                Qsum (day_completions (Summary_Day row) tbl) /
                inject_Z (Z.of_nat (length (day_completions (Summary_Day row) tbl))))
           daily.
Proof.
  intros Hwf.
  destruct (process_data_well_formed _ Hwf) as (s & tbl & _ & Htbl & _).
  exists tbl, (daily_fight_prog (map progress tbl)).
  split; [exact Htbl |]. split; [now apply process_data_daily_ok |].
  destruct (daily_fight_prog_spec tbl) as (_ & _ & Hrows).
  eapply Forall_impl; [| exact Hrows].
  intros row (Hne & -> & _). split; [exact Hne | reflexivity].
Qed.

Lemma daily_mean_is_mean_of_day_witness :
  well_formed same_day_doc = true /\
  exists tbl daily,
    process_data same_day_doc = Ok tbl /\
    process_data_daily same_day_doc = Ok daily /\
    Forall (fun row =>
              day_completions (Summary_Day row) tbl <> [] /\
              Mean_Daily_Fight_Completion row ==
                Qsum (day_completions (Summary_Day row) tbl) /
                inject_Z (Z.of_nat (length (day_completions (Summary_Day row) tbl))))
           daily.
Proof.
  split; [reflexivity | apply (daily_mean_is_mean_of_day same_day_doc); reflexivity].
Defined.

(** X16. The "Median Daily Fight Completion" of a day is the median of the
    "Pull Fight Completion" of all the rows of the first table with that day
    number: the middle value, or half the sum of the two middle values when
    the rows of the day are in even number. *)
Theorem daily_median_is_median_of_day (raw : RawDoc) :
  well_formed raw = true ->
  exists tbl daily,
    process_data raw = Ok tbl /\
    process_data_daily raw = Ok daily /\
    Forall (fun row =>
              is_median (Median_Daily_Fight_Completion row)
                        (day_completions (Summary_Day row) tbl))
           daily.
Proof.
  intros Hwf.
  destruct (process_data_well_formed _ Hwf) as (s & tbl & _ & Htbl & _).
  exists tbl, (daily_fight_prog (map progress tbl)).
  split; [exact Htbl |]. split; [now apply process_data_daily_ok |].
  destruct (daily_fight_prog_spec tbl) as (_ & _ & Hrows).
  eapply Forall_impl; [| exact Hrows].
  intros row (Hne & _ & ->). now apply median_spec.
Qed.

Lemma daily_median_is_median_of_day_witness :
  well_formed same_day_doc = true /\
  exists tbl daily,
    process_data same_day_doc = Ok tbl /\
    process_data_daily same_day_doc = Ok daily /\
    Forall (fun row =>
              is_median (Median_Daily_Fight_Completion row)
                        (day_completions (Summary_Day row) tbl))
           daily.
Proof.
  split; [reflexivity | apply (daily_median_is_median_of_day same_day_doc); reflexivity].
Defined.

(** X17. When the remaining percentage of every attempt is between 0 and
    100, the mean and the median of every day are between 0 and 100. *)
Theorem daily_table_in_range (raw : RawDoc) :
  well_formed raw = true ->
  percentages_in_range raw = true ->
  exists daily,
    process_data_daily raw = Ok daily /\
    Forall (fun row =>
              (0 <= Mean_Daily_Fight_Completion row /\
               Mean_Daily_Fight_Completion row <= 100) /\
              (0 <= Median_Daily_Fight_Completion row /\
               Median_Daily_Fight_Completion row <= 100))
           daily.
Proof.
  intros Hwf Hrange.
  destruct (process_data_well_formed _ Hwf) as (s & tbl & Hs & Htbl & Hmap & _).
  exists (daily_fight_prog (map progress tbl)).
  split; [now apply process_data_daily_ok |].
  pose proof (table_completions_in_range _ tbl Hrange Hs Hmap) as Hall.
  destruct (daily_fight_prog_spec tbl) as (_ & _ & Hrows).
  eapply Forall_impl; [| exact Hrows].
  intros row (Hne & -> & ->).
  assert (Hvs : Forall (fun v => 0 <= v /\ v <= 100)
                       (day_completions (Summary_Day row) tbl)).
  { unfold day_completions. apply Forall_map. apply Forall_forall. intros t Ht.
    apply filter_In in Ht as [Ht _]. rewrite Forall_forall in Hall. now apply Hall. }
  split.
  - now apply mean_bounds.
  - eapply median_bounds; [exact Hvs | now apply median_spec].
Qed.

Lemma daily_table_in_range_witness :
  well_formed two_day_doc = true /\
  percentages_in_range two_day_doc = true /\
  exists daily,
    process_data_daily two_day_doc = Ok daily /\
    Forall (fun row =>
              (0 <= Mean_Daily_Fight_Completion row /\
               Mean_Daily_Fight_Completion row <= 100) /\
              (0 <= Median_Daily_Fight_Completion row /\
               Median_Daily_Fight_Completion row <= 100))
           daily.
Proof.
  split; [reflexivity |]. split; [reflexivity |].
  apply (daily_table_in_range two_day_doc); reflexivity.
Defined.

(** The daily table of the document with two reports of day 1: one row, the
    mean and the median of the completions 40 and 50 of the two reports. *)
Example same_day_doc_daily :
  exists row,
    process_data_daily same_day_doc = Ok [row] /\
    Summary_Day row = 1%Z /\
    Mean_Daily_Fight_Completion row == 45 /\
    Median_Daily_Fight_Completion row == 45.
Proof.
  eexists. split; [reflexivity |]. split; [reflexivity |]. split; reflexivity.
Qed.
